(** * Influence zones and leaf morphing: a shallow embedding

    The development follows the source units of the demo:

    - [systems/LeafGeometrySystem.ts]: leaf properties, clamping, the
      zone-type table and the interpolator;
    - [context/InfluenceZoneContext.tsx]: the zone registry, the membership
      and dominance resolver and the effect multiplier;
    - [context/LeafMorphHistoryContext.tsx]: the morph history and the
      accumulated morph;
    - [components/AdaptiveLeafMesh.tsx]: the transition state machine driven
      by the zone-type effect and the frame callback.

    Conventions.  The units are embedded at two levels.  At the first a
    JavaScript [number] is an exact rational ([Q]), the literals [1.0] and
    [2.0] of the source are the numbers 1 and 2, and an object used as a
    dictionary is the finite map of its own properties ([gmap]).  The second
    level ([JsValue], [JsLeafGeometrySystem], [JsLeafMorphHistoryContext],
    [FloatInfluenceZoneContext]) adds what the first leaves out, where a
    property depends on it: [NaN] and [undefined], the properties every
    object literal inherits from [Object.prototype], and the binary64
    arithmetic of the distance test.  React state and refs are explicit
    records threaded through the operations. *)

From Stdlib Require Import Floats QArith Qminmax Qpower Qreals Reals Psatz List Bool.
From stdpp Require Import gmap strings.
Import ListNotations.

Open Scope Q_scope.

(** ** JavaScript primitives *)

Module Js.

(** [Math.max(a, b)] and [Math.min(a, b)]. *)
Definition Math_max (a b : Q) : Q := Qmax a b.
Definition Math_min (a b : Q) : Q := Qmin a b.

(** Truthiness of a number: [0] is the only falsy rational. *)
Definition truthy (v : Q) : bool := negb (Qeq_bool v 0).

(** [table[key] || dflt] where the table holds numbers: a missing key reads
    as [undefined], and both [undefined] and [0] are falsy. *)
Definition or_number (v : option Q) (dflt : Q) : Q :=
  match v with
  | Some x => if truthy x then x else dflt
  | None => dflt
  end.

(** [table[key] || dflt] where the table holds objects: every object is
    truthy, only a missing key falls through. *)
Definition or_object {A : Type} (v : option A) (dflt : A) : A :=
  match v with
  | Some x => x
  | None => dflt
  end.

(** [s || dflt] on strings: the empty string is the only falsy string. *)
Definition or_string (s dflt : string) : string :=
  if String.eqb s "" then dflt else s.

End Js.

(** ** systems/LeafGeometrySystem.ts *)

Module LeafGeometrySystem.

Record LeafProperties : Type := mkLeaf {
  width : Q;
  length : Q;
  pointiness : Q;
  surface : Q;
  thickness : Q
}.

(** [clamp(value, min, max) = Math.max(min, Math.min(max, value))]. *)
Definition clamp (value lo hi : Q) : Q :=
  Js.Math_max lo (Js.Math_min hi value).

Definition clampLeafProperties (props : LeafProperties) : LeafProperties :=
  {| width := clamp (width props) 0 1;
     length := clamp (length props) 0.5 1.5;
     pointiness := clamp (pointiness props) 0 1;
     surface := clamp (surface props) 0 1;
     thickness := clamp (thickness props) 0 1 |}.

(** The [conditions] object literal of [getLeafPropertiesFromZone]: its own
    properties.  [JsLeafGeometrySystem] has the lookup with the members the
    literal inherits. *)
Definition conditions : gmap string LeafProperties :=
  {[ "speed_boost"%string := mkLeaf 0.8 1.2 0.2 0.5 0.12;
     "jump_boost"%string := mkLeaf 0.3 1.5 0.8 0.8 0.18;
     "ice"%string := mkLeaf 0.4 0.8 0.6 0.9 0.15;
     "slow"%string := mkLeaf 0.6 0.9 0.3 0.2 0.2;
     "damage"%string := mkLeaf 0.2 0.6 0.9 1 0.08 ]}.

(** The literal used when [conditions[zoneType]] is missing. *)
Definition fallbackProps : LeafProperties := mkLeaf 0.5 1 0.5 0.3 0.1.

Definition getLeafPropertiesFromZone (zoneType : string) : LeafProperties :=
  let baseProps := Js.or_object (conditions !! zoneType) fallbackProps in
  clampLeafProperties baseProps.

(** Modelled from the spec: [THREE.MathUtils.smoothstep(x, min, max)] of the
    three.js library, which is not part of the repository.  The spec gives
    the easing as 3p^2 - 2p^3 with the endpoints fixed at 0 and 1. *)
Definition smoothstep (x lo hi : Q) : Q :=
  if Qle_bool x lo then 0
  else if Qle_bool hi x then 1
  else let t := (x - lo) / (hi - lo) in t * t * (3 - 2 * t).

(** Modelled from the spec: [THREE.MathUtils.lerp(x, y, t)] of the three.js
    library, the per-property linear interpolation between source and
    target. *)
Definition lerp (x y t : Q) : Q := (1 - t) * x + t * y.

Definition morphLeafProperties (fromProps toProps : LeafProperties)
    (progress : Q) : LeafProperties :=
  let eased := smoothstep progress 0 1 in
  let morphed :=
    {| width := lerp (width fromProps) (width toProps) eased;
       length := lerp (length fromProps) (length toProps) eased;
       pointiness := lerp (pointiness fromProps) (pointiness toProps) eased;
       surface := lerp (surface fromProps) (surface toProps) eased;
       thickness := lerp (thickness fromProps) (thickness toProps) eased |} in
  clampLeafProperties morphed.

(** The valid ranges of the five fields. *)
Definition in_range (p : LeafProperties) : Prop :=
  (0 <= width p /\ width p <= 1) /\
  (0.5 <= length p /\ length p <= 1.5) /\
  (0 <= pointiness p /\ pointiness p <= 1) /\
  (0 <= surface p /\ surface p <= 1) /\
  (0 <= thickness p /\ thickness p <= 1).

(** Field-wise equality of rationals. *)
Definition leaf_equiv (p q : LeafProperties) : Prop :=
  width p == width q /\ length p == length q /\
  pointiness p == pointiness q /\ surface p == surface q /\
  thickness p == thickness q.

(** Mesh construction.  [generateLeafGeometry] fills the defaults in, clamps
    the properties and builds a [THREE.BufferGeometry] from the clamped
    values (vertex loop with [Math.sin] and [Math.pow], index and uv
    buffers).  The buffer type and the builder are parameters; both callers
    pass a complete [LeafProperties], so the spread of the defaults leaves
    the argument as it is. *)
Section Geometry.

Variable BufferGeometry : Type.
Variable buildGeometry : LeafProperties -> BufferGeometry.

Definition generateLeafGeometry (properties : LeafProperties) : BufferGeometry :=
  let rawProps := properties in
  let props := clampLeafProperties rawProps in
  buildGeometry props.

End Geometry.

End LeafGeometrySystem.

Module LGS := LeafGeometrySystem.

(** ** context/InfluenceZoneContext.tsx *)

Module InfluenceZoneContext.

(** [THREE.Vector3]. *)
Record Vector3 : Type := mkVector3 { x : Q; y : Q; z : Q }.

(** Modelled from the spec: [Vector3.distanceToSquared] of three.js, the sum
    of the squared coordinate differences. *)
Definition distanceToSquared (a b : Vector3) : Q :=
  let dx := x a - x b in
  let dy := y a - y b in
  let dz := z a - z b in
  dx * dx + dy * dy + dz * dz.

(** Modelled from the spec: [Vector3.distanceTo] of three.js, the Euclidean
    distance [Math.sqrt(distanceToSquared)].  A square root of a rational is
    a real number. *)
Definition distanceTo (a b : Vector3) : R :=
  sqrt (Q2R (distanceToSquared a b)).

(** The test [a.distanceTo(b) <= r] decided on rationals: a square root is at
    most [r] exactly when [r] is not negative and the radicand is at most
    [r * r] ([distanceTo_leb_spec] below relates it to [distanceTo]).  This
    is the test in exact arithmetic; [FloatInfluenceZoneContext] has it on
    doubles. *)
Definition distanceTo_leb (a b : Vector3) (r : Q) : bool :=
  Qle_bool 0 r && Qle_bool (distanceToSquared a b) (r * r).

Record InfluenceZone : Type := mkZone {
  id : string;
  type : string;
  position : Vector3;
  radius : Q;
  color : string;
  intensity : Q;
  description : string
}.

Record PlayerZoneState : Type := mkPlayerZoneState {
  activeZones : list InfluenceZone;
  isInZone : bool;
  dominantZone : option InfluenceZone
}.

(** The three [useState] cells of [InfluenceZoneProvider]. *)
Record ProviderState : Type := mkProvider {
  zones : list InfluenceZone;
  playerPosition : Vector3;
  playerZoneState : PlayerZoneState
}.

Definition initialProvider : ProviderState :=
  {| zones := [];
     playerPosition := mkVector3 0 0 0;
     playerZoneState :=
       {| activeZones := []; isInZone := false; dominantZone := None |} |}.

Definition addZone (zone : InfluenceZone) (st : ProviderState) : ProviderState :=
  {| zones := zones st ++ [zone];
     playerPosition := playerPosition st;
     playerZoneState := playerZoneState st |}.

Definition removeZone (zoneId : string) (st : ProviderState) : ProviderState :=
  {| zones := List.filter (fun z => negb (String.eqb (id z) zoneId)) (zones st);
     playerPosition := playerPosition st;
     playerZoneState := playerZoneState st |}.

(** The [effects] object literal of [getZoneEffect]. *)
Definition effects : gmap string Q :=
  {[ "ice"%string := 0.5;
     "jump_boost"%string := 1.5;
     "damage"%string := 0;
     "slow"%string := 0.6;
     "speed_boost"%string := 1.5 ]}.

(** [return effects[zone.type] || 1]. *)
Definition getZoneEffect (zone : InfluenceZone) : Q :=
  Js.or_number (effects !! type zone) 1.

(** The predicate of [zones.filter] in [updatePlayerZones]. *)
Definition isInside (playerPos : Vector3) (zone : InfluenceZone) : bool :=
  distanceTo_leb playerPos (position zone) (radius zone).

(** The membership test in the words of the specification: the Euclidean
    distance from the position to the zone centre is at most the radius. *)
Definition contains (p : Vector3) (zone : InfluenceZone) : Prop :=
  (distanceTo p (position zone) <= Q2R (radius zone))%R.

Definition updatePlayerZones (playerPos : Vector3) (st : ProviderState)
    : ProviderState :=
  let active := List.filter (isInside playerPos) (zones st) in
  let dominant :=
    if Nat.ltb 0 (List.length active) then List.nth_error active 0 else None in
  {| zones := zones st;
     playerPosition := playerPos;
     playerZoneState :=
       {| activeZones := active;
          isInZone := Nat.ltb 0 (List.length active);
          dominantZone := dominant |} |}.

(** The resolver on a registry: the zone state [updatePlayerZones] stores
    when the registry holds [zs]. *)
Definition resolve (p : Vector3) (zs : list InfluenceZone) : PlayerZoneState :=
  playerZoneState
    (updatePlayerZones p
       {| zones := zs; playerPosition := mkVector3 0 0 0;
          playerZoneState := playerZoneState initialProvider |}).

(** The damage zone registered by [Environment.tsx]. *)
Definition damage_zone_1 : InfluenceZone :=
  mkZone "damage_zone_1" "damage" (mkVector3 25 1.5 (-15)) 5 "#FF6B6B" 0.7
    "High pressure zone - stunted growth".

(** The two-zone registry of the end-to-end scenario: a cold zone of radius
    3 at the origin, then a speed zone of radius 3 centred at (0,0,5). *)
Definition zoneA : InfluenceZone :=
  mkZone "A" "ice" (mkVector3 0 0 0) 3 "#A8D8EA" 1 "cold".

Definition zoneB : InfluenceZone :=
  mkZone "B" "speed_boost" (mkVector3 0 0 5) 3 "#7FD8BE" 1 "speed".

End InfluenceZoneContext.

Module IZC := InfluenceZoneContext.

(** ** context/LeafMorphHistoryContext.tsx *)

Module LeafMorphHistoryContext.

Definition DEFAULT_LEAF : LGS.LeafProperties :=
  LGS.mkLeaf 0.5 1 0.5 0.3 0.1.

(** The file's own copy of [clamp]. *)
Definition clamp (value lo hi : Q) : Q :=
  Js.Math_max lo (Js.Math_min hi value).

Definition blendLeafProperties (a b : LGS.LeafProperties) (weightB : Q)
    : LGS.LeafProperties :=
  let w := clamp weightB 0 1 in
  let blended :=
    {| LGS.width := clamp (LGS.width a * (1 - w) + LGS.width b * w) 0 1;
       LGS.length := clamp (LGS.length a * (1 - w) + LGS.length b * w) 0.5 1.5;
       LGS.pointiness :=
         clamp (LGS.pointiness a * (1 - w) + LGS.pointiness b * w) 0 1;
       LGS.surface := clamp (LGS.surface a * (1 - w) + LGS.surface b * w) 0 1;
       LGS.thickness :=
         clamp (LGS.thickness a * (1 - w) + LGS.thickness b * w) 0 1 |} in
  blended.

(** The two [useState] cells of [LeafMorphHistoryProvider]. *)
Record HistoryState : Type := mkHistory {
  morphHistory : gmap string LGS.LeafProperties;
  currentMorph : LGS.LeafProperties
}.

Definition initialHistory : HistoryState :=
  {| morphHistory := ∅; currentMorph := DEFAULT_LEAF |}.

Definition recordZoneMorph (zoneId : string) (props : LGS.LeafProperties)
    (st : HistoryState) : HistoryState :=
  {| morphHistory := <[zoneId := props]> (morphHistory st);
     currentMorph := currentMorph st |}.

(** One iteration of the [for (const zoneId of zoneIds)] loop: a recorded
    object is truthy, a missing key reads as [undefined].  The history is
    the map of its own records; [JsLeafMorphHistoryContext] has the lookup
    with the inherited members. *)
Definition accumulateStep (h : gmap string LGS.LeafProperties)
    (accumulated : LGS.LeafProperties) (zoneId : string) : LGS.LeafProperties :=
  match h !! zoneId with
  | Some recorded => blendLeafProperties accumulated recorded 0.5
  | None => accumulated
  end.

(** [getAccumulatedMorph] returns a value and calls [setCurrentMorph]; the
    pair is the returned value and the provider state afterwards. *)
Definition getAccumulatedMorph (zoneIds : list string) (st : HistoryState)
    : LGS.LeafProperties * HistoryState :=
  if Nat.eqb (List.length zoneIds) 0 then (currentMorph st, st)
  else
    let accumulated :=
      List.fold_left (accumulateStep (morphHistory st)) zoneIds DEFAULT_LEAF in
    (accumulated,
     {| morphHistory := morphHistory st; currentMorph := accumulated |}).

Definition resetHistory (st : HistoryState) : HistoryState :=
  {| morphHistory := ∅; currentMorph := DEFAULT_LEAF |}.

Definition getCurrentMorph (st : HistoryState) : LGS.LeafProperties :=
  currentMorph st.

(** The blend of the loop, [blendLeafProperties(accumulated, recorded, 0.5)],
    with the weight put in; the clamp is the one of this file.  The loop
    over a list of recorded property sets is a left fold of it. *)
Definition blend_spec (acc recorded : LGS.LeafProperties) : LGS.LeafProperties :=
  {| LGS.width := clamp (LGS.width acc * 0.5 + LGS.width recorded * 0.5) 0 1;
     LGS.length :=
       clamp (LGS.length acc * 0.5 + LGS.length recorded * 0.5) 0.5 1.5;
     LGS.pointiness :=
       clamp (LGS.pointiness acc * 0.5 + LGS.pointiness recorded * 0.5) 0 1;
     LGS.surface :=
       clamp (LGS.surface acc * 0.5 + LGS.surface recorded * 0.5) 0 1;
     LGS.thickness :=
       clamp (LGS.thickness acc * 0.5 + LGS.thickness recorded * 0.5) 0 1 |}.

(** The reading of an unknown id in which its slot holds [DEFAULT_LEAF]: the
    fold blends [DEFAULT_LEAF] in where the history has no entry. *)
Definition accumulated_default_slot (h : gmap string LGS.LeafProperties)
    (zoneIds : list string) : LGS.LeafProperties :=
  List.fold_left
    (fun acc zoneId => blend_spec acc (default DEFAULT_LEAF (h !! zoneId)))
    zoneIds DEFAULT_LEAF.

(** The history after entering a speed zone and then a jump zone, each
    recorded under its id with the mapped properties of its type. *)
Definition visited_speed : HistoryState :=
  recordZoneMorph "speed_boost"
    (LGS.getLeafPropertiesFromZone "speed_boost") initialHistory.

Definition visited_speed_jump : HistoryState :=
  recordZoneMorph "jump_boost"
    (LGS.getLeafPropertiesFromZone "jump_boost") visited_speed.

End LeafMorphHistoryContext.

Module LMH := LeafMorphHistoryContext.

(** ** components/AdaptiveLeafMesh.tsx *)

Module AdaptiveLeafMesh.

Section Component.

(** [THREE.BufferGeometry], the empty geometry [new THREE.BufferGeometry()]
    and the mesh builder behind [generateLeafGeometry]. *)
Variable BufferGeometry : Type.
Variable emptyGeometry : BufferGeometry.
Variable buildGeometry : LGS.LeafProperties -> BufferGeometry.

Record LeafMorphState : Type := mkMorphState {
  currentLeafGeometry : BufferGeometry;
  targetLeafGeometry : BufferGeometry;
  morphProgress : Q;
  isTransitioning : bool
}.

(** The refs of the component: [morphStateRef], [previousZoneType],
    [showSporesRef], and whether [meshRef.current] and [materialRef.current]
    are set. *)
Record Refs : Type := mkRefs {
  morphStateRef : LeafMorphState;
  previousZoneType : string;
  showSporesRef : bool;
  meshRef : bool;
  materialRef : bool
}.

Definition initialRefs : Refs :=
  {| morphStateRef :=
       {| currentLeafGeometry := emptyGeometry;
          targetLeafGeometry := emptyGeometry;
          morphProgress := 0;
          isTransitioning := false |};
     previousZoneType := "";
     showSporesRef := false;
     meshRef := false;
     materialRef := false |}.

(** The render body assigns [materialRef.current = leafMaterial]; mounting
    the [<mesh ref={meshRef}>] element sets [meshRef.current]. *)
Definition render (r : Refs) : Refs :=
  {| morphStateRef := morphStateRef r;
     previousZoneType := previousZoneType r;
     showSporesRef := showSporesRef r;
     meshRef := true;
     materialRef := true |}.

(** The [useEffect] with dependency [zoneType]. *)
Definition zoneEffect (zoneType : string) (r : Refs) : Refs :=
  if String.eqb zoneType (previousZoneType r) then r
  else
    let currentProps :=
      LGS.getLeafPropertiesFromZone
        (Js.or_string (previousZoneType r) "default") in
    let targetProps := LGS.getLeafPropertiesFromZone zoneType in
    {| morphStateRef :=
         {| currentLeafGeometry :=
              LGS.generateLeafGeometry BufferGeometry buildGeometry currentProps;
            targetLeafGeometry :=
              LGS.generateLeafGeometry BufferGeometry buildGeometry targetProps;
            morphProgress := 0;
            isTransitioning := true |};
       previousZoneType := zoneType;
       showSporesRef := true;
       meshRef := meshRef r;
       materialRef := materialRef r |}.

(** The [useFrame] callback, [delta] being [state.clock.getDelta()].  The
    writes to the shader uniforms and to the mesh rotation leave the refs
    above as they are. *)
Definition frame (delta : Q) (r : Refs) : Refs :=
  if negb (meshRef r) || negb (materialRef r) then r
  else
    let morphState := morphStateRef r in
    if isTransitioning morphState then
      let progress := morphProgress morphState + delta * 2 in
      if Qle_bool 1 progress then
        {| morphStateRef :=
             {| currentLeafGeometry := currentLeafGeometry morphState;
                targetLeafGeometry := targetLeafGeometry morphState;
                morphProgress := 1;
                isTransitioning := false |};
           previousZoneType := previousZoneType r;
           showSporesRef := false;
           meshRef := meshRef r;
           materialRef := materialRef r |}
      else
        {| morphStateRef :=
             {| currentLeafGeometry := currentLeafGeometry morphState;
                targetLeafGeometry := targetLeafGeometry morphState;
                morphProgress := progress;
                isTransitioning := isTransitioning morphState |};
           previousZoneType := previousZoneType r;
           showSporesRef := showSporesRef r;
           meshRef := meshRef r;
           materialRef := materialRef r |}
    else r.

(** What the host does to a mounted component: it renders, runs the zone
    effect with the current [zoneType] prop, and calls the frame callback
    with the time elapsed since the last call, which is never negative. *)
Inductive step : Refs -> Refs -> Prop :=
| step_render : forall r, step r (render r)
| step_zone : forall zoneType r, step r (zoneEffect zoneType r)
| step_frame : forall delta r, 0 <= delta -> step r (frame delta r).

Inductive reachable : Refs -> Prop :=
| reach_init : reachable initialRefs
| reach_step : forall r r', reachable r -> step r r' -> reachable r'.

(** Progress stays in the unit interval and is below one while a transition
    is in flight. *)
Definition progress_ok (r : Refs) : Prop :=
  0 <= morphProgress (morphStateRef r) /\
  morphProgress (morphStateRef r) <= 1 /\
  (isTransitioning (morphStateRef r) = true ->
   morphProgress (morphStateRef r) < 1).

End Component.

Arguments currentLeafGeometry {BufferGeometry} _.
Arguments targetLeafGeometry {BufferGeometry} _.
Arguments morphProgress {BufferGeometry} _.
Arguments isTransitioning {BufferGeometry} _.
Arguments morphStateRef {BufferGeometry} _.
Arguments previousZoneType {BufferGeometry} _.
Arguments showSporesRef {BufferGeometry} _.
Arguments meshRef {BufferGeometry} _.
Arguments materialRef {BufferGeometry} _.
Arguments render {BufferGeometry} _.
Arguments zoneEffect {BufferGeometry} buildGeometry zoneType r.
Arguments frame {BufferGeometry} delta r.
Arguments progress_ok {BufferGeometry} r.

(** A concrete instance for examples: a geometry is identified with the
    clamped properties it was built from. *)
Definition sampleEmpty : LGS.LeafProperties := LGS.mkLeaf 0 0 0 0 0.

Definition sampleBuild (props : LGS.LeafProperties) : LGS.LeafProperties := props.

(** A mounted component whose zone type went from none to ice, one frame of
    0.1 s into the transition. *)
Definition sampleMounted : Refs LGS.LeafProperties :=
  zoneEffect sampleBuild "ice" (render (initialRefs LGS.LeafProperties sampleEmpty)).

Definition sampleInFlight : Refs LGS.LeafProperties :=
  frame 0.1 sampleMounted.

End AdaptiveLeafMesh.

Module ALM := AdaptiveLeafMesh.

(** ** components/ZoneMiniVisualizerWithHistory.tsx *)

Module ZoneMiniVisualizer.

(** The refs of [MiniVisualizerCanvas] together with the morph-history
    provider its effect writes to. *)
Record Tracker : Type := mkTracker {
  prevDominantZoneRef : option string;
  visitedZonesRef : gset string;
  history : LMH.HistoryState
}.

Definition initialTracker : Tracker :=
  {| prevDominantZoneRef := None;
     visitedZonesRef := ∅;
     history := LMH.initialHistory |}.

(** [prevDominantZoneRef.current !== zoneId], the ref holding a string or
    [null]. *)
Definition differs (prev : option string) (zoneId : string) : bool :=
  match prev with
  | Some s => negb (String.eqb s zoneId)
  | None => true
  end.

(** The effect that tracks zone changes and records the morph history. *)
Definition trackDominantZone (dominantZone : option IZC.InfluenceZone)
    (t : Tracker) : Tracker :=
  match dominantZone with
  | None => t
  | Some zone =>
      let zoneId := IZC.id zone in
      if differs (prevDominantZoneRef t) zoneId then
        let morphProps := LGS.getLeafPropertiesFromZone (IZC.type zone) in
        {| prevDominantZoneRef := Some zoneId;
           visitedZonesRef := {[ zoneId ]} ∪ visitedZonesRef t;
           history := LMH.recordZoneMorph zoneId morphProps (history t) |}
      else t
  end.

(** [dominantZone?.type || 'default']. *)
Definition currentZoneType (dominantZone : option IZC.InfluenceZone) : string :=
  match dominantZone with
  | Some zone => Js.or_string (IZC.type zone) "default"
  | None => "default"%string
  end.

(** [showTailPlant]. *)
Definition showTailPlant (dominantZone : option IZC.InfluenceZone) : bool :=
  match dominantZone with
  | None => false
  | Some zone =>
      String.eqb (IZC.type zone) "speed_boost" || String.eqb (IZC.type zone) "slow"
  end.

(** The effect run over the dominant zones of successive renders. *)
Definition trackAll (dominants : list (option IZC.InfluenceZone)) (t : Tracker)
    : Tracker :=
  List.fold_left (fun acc d => trackDominantZone d acc) dominants t.

End ZoneMiniVisualizer.

Module ZMV := ZoneMiniVisualizer.

(** ** hooks/usePlayerPositionTracking.ts *)

Module PlayerPositionTracking.

(** Modelled from the spec: [Vector3.lerp(v, alpha)] of three.js, which moves
    each coordinate by [alpha] times its difference to [v]. *)
Definition lerpVector (s v : IZC.Vector3) (alpha : Q) : IZC.Vector3 :=
  IZC.mkVector3
    (IZC.x s + (IZC.x v - IZC.x s) * alpha)
    (IZC.y s + (IZC.y v - IZC.y s) * alpha)
    (IZC.z s + (IZC.z v - IZC.z s) * alpha).

Record TrackingRefs : Type := mkTracking {
  playerPosRef : IZC.Vector3;
  smoothedPositionRef : IZC.Vector3
}.

Definition initialTracking : TrackingRefs :=
  {| playerPosRef := IZC.mkVector3 0 0 0;
     smoothedPositionRef := IZC.mkVector3 0 0 0 |}.

(** The [useFrame] callback up to the call of [updatePlayerZones]:
    [cachedGroup] is the world position of the cached player group when one
    is cached, [camera] the camera position.  The periodic search that
    follows only refreshes the cache. *)
Definition trackFrame (cachedGroup : option IZC.Vector3) (camera : IZC.Vector3)
    (refs : TrackingRefs) (provider : IZC.ProviderState)
    : TrackingRefs * IZC.ProviderState :=
  let playerPos :=
    match cachedGroup with
    | Some world => world
    | None => camera
    end in
  let smoothed := lerpVector (smoothedPositionRef refs) playerPos 0.2 in
  ({| playerPosRef := smoothed; smoothedPositionRef := smoothed |},
   IZC.updatePlayerZones smoothed provider).

(** [n] frames with the player group cached at the same world position. *)
Fixpoint trackStill (n : nat) (world : IZC.Vector3) (refs : TrackingRefs)
    (provider : IZC.ProviderState) : TrackingRefs * IZC.ProviderState :=
  match n with
  | O => (refs, provider)
  | S k =>
      let '(refs', provider') :=
        trackFrame (Some world) world refs provider in
      trackStill k world refs' provider'
  end.

End PlayerPositionTracking.

Module PPT := PlayerPositionTracking.

(** ** package/src/modules/player/jump.ts *)

Module PlayerJump.

(** The argument of [controls.current.applyImpulse]. *)
Record Impulse : Type := mkImpulse { ix : Q; iy : Q; iz : Q }.

(** What [handleJump] reads through its parameters and writes through its
    setters: the [wait] and [isJumping] flags, the index of the current
    animation action, the impulses applied to the rigid body so far and the
    delays (in milliseconds) handed to [setTimeout].  A call receives the
    flags as the setters of the earlier calls and timers left them. *)
Record JumpState : Type := mkJumpState {
  wait : bool;
  isJumping : bool;
  action : nat;
  impulses : list Impulse;
  timeouts : list Q
}.

(** The per-call inputs: the key and ground flags, whether
    [controls.current] is set, the duration of the jump clip
    ([actions[8].getClip().duration]) and the optional boost multiplier. *)
Record JumpInput : Type := mkJumpInput {
  jumpPressed : bool;
  isGrounded : bool;
  hasControls : bool;
  jumpDuration : Q;
  jumpBoostMultiplier : option Q
}.

Definition initialJump : JumpState :=
  {| wait := false; isJumping := false; action := 0%nat;
     impulses := []; timeouts := [] |}.

(** Whether the first conditional of [handleJump] fires. *)
Definition jumps (i : JumpInput) (s : JumpState) : bool :=
  jumpPressed i && isGrounded i && negb (wait s) && negb (isJumping s).

(** [handleJump].  Both conditionals test the [wait] and [isJumping] values
    the call received; the default of [jumpBoostMultiplier] is 1. *)
Definition handleJump (i : JumpInput) (s : JumpState) : JumpState :=
  let multiplier := default 1 (jumpBoostMultiplier i) in
  let s1 :=
    if jumps i s then
      let jumpForce := 1.8 * multiplier in
      {| wait := true;
         isJumping := true;
         action := 8%nat;
         impulses :=
           if hasControls i
           then impulses s ++ [mkImpulse 0 jumpForce 0]
           else impulses s;
         timeouts := timeouts s ++ [jumpDuration i * 1000] |}
    else s in
  if isGrounded i && wait s && negb (isJumping s) then
    {| wait := false;
       isJumping := isJumping s1;
       action := action s1;
       impulses := impulses s1;
       timeouts := timeouts s1 |}
  else s1.

End PlayerJump.

Module PJ := PlayerJump.

(** ** Environment.tsx: the zones of the level *)

Module Environment.

(** The eight zones [ZoneManager] registers, in registration order (the
    [environment] attributes of the literals are not part of
    [InfluenceZone]). *)
Definition levelZones : list IZC.InfluenceZone :=
  [ IZC.mkZone "ice_zone_1" "ice" (IZC.mkVector3 15 1.5 10) 4 "#87CEEB" 0.8
      "Cold alpine zone - compact leaves";
    IZC.mkZone "speed_boost_1" "speed_boost" (IZC.mkVector3 (-12) 1.5 (-8)) 3.5
      "#00FF00" 1 "Tropical zone - broad leaves";
    IZC.mkZone "jump_boost_1" "jump_boost" (IZC.mkVector3 0 2 (-30)) 4
      "#FFD700" 0.9 "Mountain peak - narrow leaves";
    IZC.damage_zone_1;
    IZC.mkZone "slow_zone_1" "slow" (IZC.mkVector3 (-25) 1.5 (-15)) 4.5
      "#8B4513" 0.8 "Desert zone - thick waxy leaves";
    IZC.mkZone "speed_boost_test" "speed_boost" (IZC.mkVector3 5 1.5 (-3)) 3
      "#00FF00" 1 "Speed boost - testing zone";
    IZC.mkZone "jump_boost_test" "jump_boost" (IZC.mkVector3 (-5) 1.5 5) 3
      "#FFD700" 0.9 "Jump boost - testing zone";
    IZC.mkZone "ice_zone_test" "ice" (IZC.mkVector3 0 1.5 (-8)) 3
      "#87CEEB" 0.8 "Ice zone - testing" ].

(** The effect of [ZoneManager], guarded by the [initialized] ref. *)
Definition initializeZones (initialized : bool) (st : IZC.ProviderState)
    : bool * IZC.ProviderState :=
  if initialized then (initialized, st)
  else (true, List.fold_left (fun acc zone => IZC.addZone zone acc) levelZones st).

(** Two zones are far apart when the squared distance of their centres
    exceeds twice the sum of their squared radii; no position is then
    inside both. *)
Definition farApart (a b : IZC.InfluenceZone) : bool :=
  negb (Qle_bool
          (IZC.distanceToSquared (IZC.position a) (IZC.position b))
          (2 * (IZC.radius a * IZC.radius a + IZC.radius b * IZC.radius b))).

Fixpoint pairwiseFar (zs : list IZC.InfluenceZone) : bool :=
  match zs with
  | [] => true
  | zone :: rest => List.forallb (farApart zone) rest && pairwiseFar rest
  end.

End Environment.

(** ** components/ZoneMiniVisualizerAdvanced.tsx *)

Module AdvancedMorphingShape.

(** [ZoneShapes]. *)
Definition ZoneShapes : gmap string string :=
  {[ "ice"%string := "icosahedron"%string;
     "jump_boost"%string := "octahedron"%string;
     "damage"%string := "cube"%string;
     "slow"%string := "torus"%string;
     "speed_boost"%string := "sphere"%string ]}.

(** [dominantZone ? ZoneShapes[dominantZone.type] : 'sphere']; a type
    without an entry reads as [undefined]. *)
Definition shapeType (dominantZone : option IZC.InfluenceZone) : option string :=
  match dominantZone with
  | Some zone => ZoneShapes !! IZC.type zone
  | None => Some "sphere"%string
  end.

(** The refs and the state cell of [AdvancedMorphingShape]. *)
Record ShapeRefs : Type := mkShapeRefs {
  previousShapeRef : option string;
  morphProgressRef : Q;
  shouldShowParticles : bool
}.

(** At mount [previousShapeRef] holds the first shape type. *)
Definition mountShape (shape : option string) : ShapeRefs :=
  {| previousShapeRef := shape; morphProgressRef := 0;
     shouldShowParticles := false |}.

(** The effect that detects shape changes ([previousShapeRef.current !==
    shapeType]). *)
Definition shapeEffect (shape : option string) (r : ShapeRefs) : ShapeRefs :=
  if bool_decide (previousShapeRef r = shape) then r
  else {| previousShapeRef := shape; morphProgressRef := 1;
          shouldShowParticles := true |}.

(** The callback of the 800 ms timer. *)
Definition particleTimeout (r : ShapeRefs) : ShapeRefs :=
  {| previousShapeRef := previousShapeRef r;
     morphProgressRef := morphProgressRef r;
     shouldShowParticles := false |}.

(** The part of the frame callback that writes the refs:
    [morphProgressRef.current = lerp(morphProgressRef.current, 0, 0.1)] when
    the material is attached. *)
Definition shapeFrame (materialAttached : bool) (r : ShapeRefs) : ShapeRefs :=
  if materialAttached then
    {| previousShapeRef := previousShapeRef r;
       morphProgressRef := LGS.lerp (morphProgressRef r) 0 0.1;
       shouldShowParticles := shouldShowParticles r |}
  else r.

Fixpoint shapeFrames (n : nat) (r : ShapeRefs) : ShapeRefs :=
  match n with
  | O => r
  | S k => shapeFrames k (shapeFrame true r)
  end.

End AdvancedMorphingShape.

Module AMS := AdvancedMorphingShape.

(** ** JavaScript values: NaN, undefined and inherited properties *)

Module JsValue.

(** A [number] short of the infinities: a rational or [NaN]. *)
Inductive number : Type :=
| Num (q : Q)
| NaN.

(** What reading a property that should hold a number gives: a number, or
    [undefined] when the object has no such property. *)
Inductive value : Type :=
| Number (n : number)
| Undefined.

(** [ToNumber], which the arithmetic operators, [Math.min] and [Math.max]
    apply to their operands: [undefined] converts to [NaN]. *)
Definition toNumber (v : value) : number :=
  match v with
  | Number n => n
  | Undefined => NaN
  end.

(** A binary operation on numbers: [NaN] in either operand gives [NaN]. *)
Definition lift2 (f : Q -> Q -> Q) (a b : number) : number :=
  match a, b with
  | Num u, Num v => Num (f u v)
  | _, _ => NaN
  end.

Definition add : number -> number -> number := lift2 Qplus.
Definition sub : number -> number -> number := lift2 Qminus.
Definition mul : number -> number -> number := lift2 Qmult.

(** [Math.max] and [Math.min] return [NaN] when an argument is [NaN]. *)
Definition Math_max : number -> number -> number := lift2 Js.Math_max.
Definition Math_min : number -> number -> number := lift2 Js.Math_min.

(** The properties every object literal inherits from [Object.prototype],
    each with what its [length] property reads.  The members are functions,
    whose [length] is the number of their declared parameters
    ([constructor] is [Object]); [__proto__] reads as [Object.prototype]
    itself, which has no [length].  No member has a property called
    [width], [pointiness], [surface] or [thickness].  The table is that of
    a realm in which nothing has been added to [Object.prototype]. *)
Definition prototypeMembers : list (string * value) :=
  [ ("constructor"%string, Number (Num 1));
    ("__defineGetter__"%string, Number (Num 2));
    ("__defineSetter__"%string, Number (Num 2));
    ("hasOwnProperty"%string, Number (Num 1));
    ("__lookupGetter__"%string, Number (Num 1));
    ("__lookupSetter__"%string, Number (Num 1));
    ("isPrototypeOf"%string, Number (Num 1));
    ("propertyIsEnumerable"%string, Number (Num 1));
    ("toString"%string, Number (Num 0));
    ("valueOf"%string, Number (Num 0));
    ("__proto__"%string, Undefined);
    ("toLocaleString"%string, Number (Num 0)) ].

Definition inherited (key : string) : bool :=
  existsb (fun member => String.eqb key (fst member)) prototypeMembers.

Definition memberLength (key : string) : value :=
  match List.find (fun member => String.eqb key (fst member)) prototypeMembers with
  | Some member => snd member
  | None => Undefined
  end.

(** What a lookup in an object literal holding values of [A] can find: an
    own property, or a member of [Object.prototype]. *)
Inductive object (A : Type) : Type :=
| Literal (a : A)
| PrototypeMember (key : string).

Arguments Literal {A} a.
Arguments PrototypeMember {A} key.

(** [table[key]]: the own property when there is one, else the inherited
    one, else [undefined] ([None]).  A record under a computed key, as
    [recordZoneMorph] writes it, is an own property whatever the key. *)
Definition get {A : Type} (own : gmap string A) (key : string)
    : option (object A) :=
  match own !! key with
  | Some a => Some (Literal a)
  | None => if inherited key then Some (PrototypeMember key) else None
  end.

End JsValue.

(** ** systems/LeafGeometrySystem.ts over JavaScript values *)

Module JsLeafGeometrySystem.

Import JsValue.

Record LeafProperties : Type := mkLeaf {
  width : number;
  length : number;
  pointiness : number;
  surface : number;
  thickness : number
}.

(** Leaf properties with rational fields, as JavaScript values. *)
Definition ofLeaf (p : LGS.LeafProperties) : LeafProperties :=
  {| width := Num (LGS.width p);
     length := Num (LGS.length p);
     pointiness := Num (LGS.pointiness p);
     surface := Num (LGS.surface p);
     thickness := Num (LGS.thickness p) |}.

(** [props.width] and the like on whatever object [props] is bound to. *)
Definition read (field : LeafProperties -> number) (props : object LeafProperties)
    : value :=
  match props with
  | Literal p => Number (field p)
  | PrototypeMember _ => Undefined
  end.

(** [props.length]: the members of [Object.prototype] have a [length]. *)
Definition read_length (props : object LeafProperties) : value :=
  match props with
  | Literal p => Number (length p)
  | PrototypeMember key => memberLength key
  end.

(** [clamp(value, min, max) = Math.max(min, Math.min(max, value))]. *)
Definition clamp (value : JsValue.value) (lo hi : Q) : number :=
  Math_max (Num lo) (Math_min (Num hi) (toNumber value)).

Definition clampLeafProperties (props : object LeafProperties) : LeafProperties :=
  {| width := clamp (read width props) 0 1;
     length := clamp (read_length props) 0.5 1.5;
     pointiness := clamp (read pointiness props) 0 1;
     surface := clamp (read surface props) 0 1;
     thickness := clamp (read thickness props) 0 1 |}.

(** The own properties of the [conditions] literal. *)
Definition conditions : gmap string LeafProperties :=
  ofLeaf <$> LGS.conditions.

Definition fallbackProps : LeafProperties := ofLeaf LGS.fallbackProps.

(** [conditions[zoneType] || {...}]: an inherited member is an object or a
    function, hence truthy, and is taken as [baseProps]. *)
Definition getLeafPropertiesFromZone (zoneType : string) : LeafProperties :=
  let baseProps :=
    Js.or_object (get conditions zoneType) (Literal fallbackProps) in
  clampLeafProperties baseProps.

(** Modelled from the spec: [THREE.MathUtils.smoothstep] of three.js on a
    number that may be [NaN]: both comparisons fail on [NaN] and the
    polynomial returns it. *)
Definition smoothstep (x : number) (lo hi : Q) : number :=
  match x with
  | Num q => Num (LGS.smoothstep q lo hi)
  | NaN => NaN
  end.

(** Modelled from the spec: [THREE.MathUtils.lerp] of three.js,
    [(1 - t) * x + t * y]. *)
Definition lerp (x y t : number) : number :=
  add (mul (sub (Num 1) t) x) (mul t y).

Definition morphLeafProperties (fromProps toProps : LeafProperties)
    (progress : number) : LeafProperties :=
  let eased := smoothstep progress 0 1 in
  let morphed :=
    {| width := lerp (width fromProps) (width toProps) eased;
       length := lerp (length fromProps) (length toProps) eased;
       pointiness := lerp (pointiness fromProps) (pointiness toProps) eased;
       surface := lerp (surface fromProps) (surface toProps) eased;
       thickness := lerp (thickness fromProps) (thickness toProps) eased |} in
  clampLeafProperties (Literal morphed).

(** A number inside [lo, hi]; [NaN] is inside no range. *)
Definition within (lo hi : Q) (n : number) : Prop :=
  match n with
  | Num q => lo <= q /\ q <= hi
  | NaN => False
  end.

(** The valid ranges of the five fields. *)
Definition in_range (p : LeafProperties) : Prop :=
  within 0 1 (width p) /\
  within 0.5 1.5 (length p) /\
  within 0 1 (pointiness p) /\
  within 0 1 (surface p) /\
  within 0 1 (thickness p).

(** Every field is a rational. *)
Definition finite (p : LeafProperties) : Prop :=
  exists q : LGS.LeafProperties, p = ofLeaf q.

End JsLeafGeometrySystem.

Module JLGS := JsLeafGeometrySystem.

(** ** context/LeafMorphHistoryContext.tsx over JavaScript values *)

Module JsLeafMorphHistoryContext.

Import JsValue.

Definition DEFAULT_LEAF : JLGS.LeafProperties := JLGS.ofLeaf LMH.DEFAULT_LEAF.

Definition clamp (value : number) (lo hi : Q) : number :=
  Math_max (Num lo) (Math_min (Num hi) value).

(** [a] is always a leaf object ([DEFAULT_LEAF] or an earlier blend); [b] is
    whatever [morphHistory[zoneId]] reads. *)
Definition blendLeafProperties (a : JLGS.LeafProperties)
    (b : object JLGS.LeafProperties) (weightB : number) : JLGS.LeafProperties :=
  let w := clamp weightB 0 1 in
  let mix (u : number) (v : value) : number :=
    add (mul u (sub (Num 1) w)) (mul (toNumber v) w) in
  let blended :=
    {| JLGS.width := clamp (mix (JLGS.width a) (JLGS.read JLGS.width b)) 0 1;
       JLGS.length := clamp (mix (JLGS.length a) (JLGS.read_length b)) 0.5 1.5;
       JLGS.pointiness :=
         clamp (mix (JLGS.pointiness a) (JLGS.read JLGS.pointiness b)) 0 1;
       JLGS.surface := clamp (mix (JLGS.surface a) (JLGS.read JLGS.surface b)) 0 1;
       JLGS.thickness :=
         clamp (mix (JLGS.thickness a) (JLGS.read JLGS.thickness b)) 0 1 |} in
  blended.

Record HistoryState : Type := mkHistory {
  morphHistory : gmap string JLGS.LeafProperties;
  currentMorph : JLGS.LeafProperties
}.

Definition initialHistory : HistoryState :=
  {| morphHistory := ∅; currentMorph := DEFAULT_LEAF |}.

Definition recordZoneMorph (zoneId : string) (props : JLGS.LeafProperties)
    (st : HistoryState) : HistoryState :=
  {| morphHistory := <[zoneId := props]> (morphHistory st);
     currentMorph := currentMorph st |}.

(** One iteration of the loop: [if (morphHistory[zoneId])] passes for an own
    record and for an inherited member alike. *)
Definition accumulateStep (h : gmap string JLGS.LeafProperties)
    (accumulated : JLGS.LeafProperties) (zoneId : string) : JLGS.LeafProperties :=
  match get h zoneId with
  | Some recorded => blendLeafProperties accumulated recorded (Num 0.5)
  | None => accumulated
  end.

Definition getAccumulatedMorph (zoneIds : list string) (st : HistoryState)
    : JLGS.LeafProperties * HistoryState :=
  if Nat.eqb (List.length zoneIds) 0 then (currentMorph st, st)
  else
    let accumulated :=
      List.fold_left (accumulateStep (morphHistory st)) zoneIds DEFAULT_LEAF in
    (accumulated,
     {| morphHistory := morphHistory st; currentMorph := accumulated |}).

Definition resetHistory (st : HistoryState) : HistoryState :=
  {| morphHistory := ∅; currentMorph := DEFAULT_LEAF |}.

Definition getCurrentMorph (st : HistoryState) : JLGS.LeafProperties :=
  currentMorph st.

(** A provider state with rational fields, as JavaScript values. *)
Definition ofState (st : LMH.HistoryState) : HistoryState :=
  {| morphHistory := JLGS.ofLeaf <$> LMH.morphHistory st;
     currentMorph := JLGS.ofLeaf (LMH.currentMorph st) |}.

(** The id reads an own record or nothing: no inherited member is met. *)
Definition plain (h : gmap string JLGS.LeafProperties) (zoneId : string) : Prop :=
  is_Some (h !! zoneId) \/ inherited zoneId = false.

(** The history after recording properties far outside every range. *)
Definition visited_wild : HistoryState :=
  recordZoneMorph "wild" (JLGS.ofLeaf (LGS.mkLeaf 7 (-3) 2 9 4)) initialHistory.

End JsLeafMorphHistoryContext.

Module JLMH := JsLeafMorphHistoryContext.

(** ** The accumulator in the words of the specification *)

Module Specification.

(** Clamping to a range: a value below the range becomes its lower end, a
    value above it its upper end, a value inside is kept. *)
Definition clamp_to (lo hi v : Q) : Q :=
  if Qle_bool lo v then (if Qle_bool v hi then v else hi) else lo.

Definition DEFAULT_LEAF : LGS.LeafProperties := LGS.mkLeaf 0.5 1 0.5 0.3 0.1.

(** The pairwise blend at weight 0.5: per property
    clamp(accumulator * 0.5 + recorded * 0.5), length clamped to [0.5, 1.5]
    and every other property to [0, 1]. *)
Definition blend (accumulator recorded : LGS.LeafProperties) : LGS.LeafProperties :=
  {| LGS.width :=
       clamp_to 0 1 (LGS.width accumulator * 0.5 + LGS.width recorded * 0.5);
     LGS.length :=
       clamp_to 0.5 1.5 (LGS.length accumulator * 0.5 + LGS.length recorded * 0.5);
     LGS.pointiness :=
       clamp_to 0 1
         (LGS.pointiness accumulator * 0.5 + LGS.pointiness recorded * 0.5);
     LGS.surface :=
       clamp_to 0 1 (LGS.surface accumulator * 0.5 + LGS.surface recorded * 0.5);
     LGS.thickness :=
       clamp_to 0 1
         (LGS.thickness accumulator * 0.5 + LGS.thickness recorded * 0.5) |}.

(** The left fold of the blend from [DEFAULT_LEAF] over the recorded
    property sets in visitation order. *)
Definition accumulated (recorded : list LGS.LeafProperties) : LGS.LeafProperties :=
  List.fold_left blend recorded DEFAULT_LEAF.

End Specification.

(** ** context/InfluenceZoneContext.tsx in binary64 arithmetic *)

Module FloatInfluenceZoneContext.

(** [THREE.Vector3] with its coordinates as doubles. *)
Record Vector3 : Type := mkVector3 { x : float; y : float; z : float }.

(** Modelled from the spec: [Vector3.distanceToSquared] of three.js,
    [dx * dx + dy * dy + dz * dz], every operation rounded to the nearest
    double. *)
Definition distanceToSquared (a b : Vector3) : float :=
  let dx := (x a - x b)%float in
  let dy := (y a - y b)%float in
  let dz := (z a - z b)%float in
  (dx * dx + dy * dy + dz * dz)%float.

(** Modelled from the spec: [Vector3.distanceTo] of three.js,
    [Math.sqrt(this.distanceToSquared(v))]. *)
Definition distanceTo (a b : Vector3) : float :=
  PrimFloat.sqrt (distanceToSquared a b).

Record InfluenceZone : Type := mkZone {
  id : string;
  type : string;
  position : Vector3;
  radius : float;
  color : string;
  intensity : float;
  description : string
}.

Record PlayerZoneState : Type := mkPlayerZoneState {
  activeZones : list InfluenceZone;
  isInZone : bool;
  dominantZone : option InfluenceZone
}.

(** The predicate of [zones.filter]:
    [playerPos.distanceTo(zone.position) <= zone.radius]. *)
Definition isInside (playerPos : Vector3) (zone : InfluenceZone) : bool :=
  (distanceTo playerPos (position zone) <=? radius zone)%float.

(** The state [updatePlayerZones] stores for a position when the registry
    holds [zones]. *)
Definition resolve (playerPos : Vector3) (zones : list InfluenceZone)
    : PlayerZoneState :=
  let active := List.filter (isInside playerPos) zones in
  let dominant :=
    if Nat.ltb 0 (List.length active) then List.nth_error active 0 else None in
  {| activeZones := active;
     isInZone := Nat.ltb 0 (List.length active);
     dominantZone := dominant |}.

(** The rational a double stands for; infinities and [NaN] stand for none. *)
Definition exact (f : float) : option Q :=
  match Prim2SF f with
  | S754_zero _ => Some 0
  | S754_finite s m e => Some (((if s then Z.neg m else Z.pos m) # 1) * 2 ^ e)
  | S754_infinity _ => None
  | S754_nan => None
  end.

Definition exactVector3 (v : Vector3) : option IZC.Vector3 :=
  match exact (x v), exact (y v), exact (z v) with
  | Some a, Some b, Some c => Some (IZC.mkVector3 a b c)
  | _, _, _ => None
  end.

(** The zone with the exact values of its doubles. *)
Definition exactZone (zone : InfluenceZone) : option IZC.InfluenceZone :=
  match exactVector3 (position zone), exact (radius zone), exact (intensity zone) with
  | Some p, Some r, Some i =>
      Some (IZC.mkZone (id zone) (type zone) p r (color zone) i (description zone))
  | _, _, _ => None
  end.

(** A zone of radius 1 at the origin and the position (0.6, 0.8, 0): the
    doubles nearest to 0.6 and 0.8. *)
Definition unitZone : InfluenceZone :=
  mkZone "unit" "ice" (mkVector3 0 0 0) 1 "#A8D8EA" 1 "cold".

Definition nearUnit : Vector3 :=
  mkVector3 0x1.3333333333333p-1 0x1.999999999999ap-1 0.

(** A zone of radius 2^1000 at the origin and a position 2^700 away on the
    x axis: the square of the distance exceeds the largest double. *)
Definition hugeZone : InfluenceZone :=
  mkZone "huge" "slow" (mkVector3 0 0 0) 0x1p1000 "#FFD93D" 1 "slow".

Definition farAway : Vector3 := mkVector3 0x1p700 0 0.

(** The cold zone of the end-to-end scenario, radius 3 at the origin, and a
    position on its boundary. *)
Definition zoneA : InfluenceZone :=
  mkZone "A" "ice" (mkVector3 0 0 0) 3 "#A8D8EA" 1 "cold".

Definition onBoundary : Vector3 := mkVector3 0 0 3.

End FloatInfluenceZoneContext.

Module FIZC := FloatInfluenceZoneContext.

(** ** Runs of the frame callback and of the accumulator *)

Module Runs.

(** The frame callback of [AdaptiveLeafMesh] over successive frames. *)
Definition runFrames {BufferGeometry : Type} (deltas : list Q)
    (r : ALM.Refs BufferGeometry) : ALM.Refs BufferGeometry :=
  List.fold_left (fun acc delta => ALM.frame delta acc) deltas r.

(** Repeated halving towards the visited values. *)
Definition midpoints (start : Q) (values : list Q) : Q :=
  List.fold_left (fun acc v => acc * 0.5 + v * 0.5) values start.

(** What the operations of the provider can do to the morph history between
    two renders: a record of properties with rational fields, an
    accumulation over ids that meet no inherited member, a reset. *)
Inductive historyStep : JLMH.HistoryState -> JLMH.HistoryState -> Prop :=
| hs_record : forall zoneId props st,
    historyStep st (JLMH.recordZoneMorph zoneId (JLGS.ofLeaf props) st)
| hs_accumulate : forall zoneIds st,
    Forall (JLMH.plain (JLMH.morphHistory st)) zoneIds ->
    historyStep st (snd (JLMH.getAccumulatedMorph zoneIds st))
| hs_reset : forall st, historyStep st (JLMH.resetHistory st).

Inductive historyReachable : JLMH.HistoryState -> Prop :=
| hr_init : historyReachable JLMH.initialHistory
| hr_step : forall st st',
    historyReachable st -> historyStep st st' -> historyReachable st'.

End Runs.

(** * Properties *)

(** ** Clamping *)

Lemma Math_clamp_range (v lo hi : Q) :
  lo <= hi -> lo <= LGS.clamp v lo hi /\ LGS.clamp v lo hi <= hi.
Proof.
  intros Hle. unfold LGS.clamp, Js.Math_max, Js.Math_min. split.
  - apply Q.le_max_l.
  - apply Q.max_lub; [exact Hle | apply Q.le_min_l].
Qed.

Lemma history_clamp_range (v lo hi : Q) :
  lo <= hi -> lo <= LMH.clamp v lo hi /\ LMH.clamp v lo hi <= hi.
Proof. exact (Math_clamp_range v lo hi). Qed.

Lemma clampLeafProperties_in_range (p : LGS.LeafProperties) :
  LGS.in_range (LGS.clampLeafProperties p).
Proof.
  unfold LGS.in_range, LGS.clampLeafProperties; cbn [LGS.width LGS.length
    LGS.pointiness LGS.surface LGS.thickness].
  repeat split; apply Math_clamp_range; discriminate.
Qed.

(** ** The effect multiplier *)


Lemma getZoneEffect_mapped :
  forall i p r c n d,
    IZC.getZoneEffect (IZC.mkZone i "ice" p r c n d) = 0.5 /\
    IZC.getZoneEffect (IZC.mkZone i "jump_boost" p r c n d) = 1.5 /\
    IZC.getZoneEffect (IZC.mkZone i "slow" p r c n d) = 0.6 /\
    IZC.getZoneEffect (IZC.mkZone i "speed_boost" p r c n d) = 1.5.
Proof. intros. repeat split; reflexivity. Qed.

Lemma getZoneEffect_unmapped (zone : IZC.InfluenceZone) :
  IZC.effects !! IZC.type zone = None -> IZC.getZoneEffect zone = 1.
Proof. unfold IZC.getZoneEffect. intros ->. reflexivity. Qed.

(** C1: on a zone of type damage the effect mapper returns 1, not the 0 its
    table holds for that type: the table entry is falsy and the default of
    [effects[zone.type] || 1] replaces it. *)
Theorem getZoneEffect_damage_is_one :
  IZC.effects !! "damage"%string = Some 0 /\
  IZC.getZoneEffect IZC.damage_zone_1 = 1 /\
  forall i p r c n d,
    IZC.getZoneEffect (IZC.mkZone i "damage" p r c n d) = 1 /\
    ~ IZC.getZoneEffect (IZC.mkZone i "damage" p r c n d) == 0.
Proof.
  split; [reflexivity |]. split; [reflexivity |].
  intros. split; [reflexivity | discriminate].
Qed.


(** ** Valid ranges of the leaf properties *)

Lemma getLeafPropertiesFromZone_in_range (zoneType : string) :
  LGS.in_range (LGS.getLeafPropertiesFromZone zoneType).
Proof. apply clampLeafProperties_in_range. Qed.

Lemma morphLeafProperties_in_range (fromProps toProps : LGS.LeafProperties)
    (progress : Q) :
  LGS.in_range (LGS.morphLeafProperties fromProps toProps progress).
Proof. apply clampLeafProperties_in_range. Qed.

Lemma blendLeafProperties_in_range (a b : LGS.LeafProperties) (weightB : Q) :
  LGS.in_range (LMH.blendLeafProperties a b weightB).
Proof.
  unfold LGS.in_range, LMH.blendLeafProperties; cbn [LGS.width LGS.length
    LGS.pointiness LGS.surface LGS.thickness].
  repeat split; apply history_clamp_range; discriminate.
Qed.

(** At the level of JavaScript values the three operations agree with their
    rational versions on rational inputs and on keys that are not
    inherited. *)
Lemma get_not_inherited {A : Type} (own : gmap string A) (key : string) :
  JsValue.inherited key = false ->
  JsValue.get own key = JsValue.Literal <$> (own !! key).
Proof.
  intros Hkey. unfold JsValue.get. rewrite Hkey.
  destruct (own !! key); reflexivity.
Qed.

Lemma get_own {A : Type} (own : gmap string A) (key : string) (a : A) :
  own !! key = Some a -> JsValue.get own key = Some (JsValue.Literal a).
Proof. intros Hkey. unfold JsValue.get. rewrite Hkey. reflexivity. Qed.

Lemma get_inherited {A : Type} (own : gmap string A) (key : string) :
  own !! key = None -> JsValue.inherited key = true ->
  JsValue.get own key = Some (JsValue.PrototypeMember key).
Proof. intros Hown Hkey. unfold JsValue.get. rewrite Hown, Hkey. reflexivity. Qed.

Lemma inherited_cases (key : string) :
  JsValue.inherited key = true ->
  In key (List.map fst JsValue.prototypeMembers).
Proof.
  unfold JsValue.inherited. rewrite existsb_exists.
  intros [member [Hin Heq]]. apply String.eqb_eq in Heq. subst key.
  apply in_map. exact Hin.
Qed.

Lemma conditions_not_inherited (key : string) :
  JsValue.inherited key = true -> JLGS.conditions !! key = None.
Proof.
  intros Hkey. apply inherited_cases in Hkey. cbn [List.map fst
    JsValue.prototypeMembers In] in Hkey.
  repeat (destruct Hkey as [<- | Hkey]; [vm_compute; reflexivity |]).
  contradiction.
Qed.

Lemma in_range_ofLeaf (p : LGS.LeafProperties) :
  JLGS.in_range (JLGS.ofLeaf p) <-> LGS.in_range p.
Proof.
  unfold JLGS.in_range, LGS.in_range, JLGS.ofLeaf, JLGS.within;
    cbn [JLGS.width JLGS.length JLGS.pointiness JLGS.surface JLGS.thickness].
  tauto.
Qed.

Lemma in_range_finite (p : JLGS.LeafProperties) :
  JLGS.in_range p -> JLGS.finite p.
Proof.
  destruct p as [w l q s t]. unfold JLGS.in_range, JLGS.within;
    cbn [JLGS.width JLGS.length JLGS.pointiness JLGS.surface JLGS.thickness].
  destruct w as [w |], l as [l |], q as [q |], s as [s |], t as [t |];
    try tauto.
  intros _. exists (LGS.mkLeaf w l q s t). reflexivity.
Qed.

Lemma width_NaN_not_in_range (p : JLGS.LeafProperties) :
  JLGS.width p = JsValue.NaN -> ~ JLGS.in_range p.
Proof. intros Hw [Hin _]. rewrite Hw in Hin. exact Hin. Qed.

Lemma getLeafPropertiesFromZone_ofLeaf (zoneType : string) :
  JsValue.inherited zoneType = false ->
  JLGS.getLeafPropertiesFromZone zoneType
  = JLGS.ofLeaf (LGS.getLeafPropertiesFromZone zoneType).
Proof.
  intros Hkey. unfold JLGS.getLeafPropertiesFromZone,
    LGS.getLeafPropertiesFromZone. cbv zeta.
  rewrite (get_not_inherited _ _ Hkey). unfold JLGS.conditions.
  rewrite lookup_fmap.
  destruct (LGS.conditions !! zoneType) as [p |]; reflexivity.
Qed.

Lemma getLeafPropertiesFromZone_inherited (zoneType : string) :
  JsValue.inherited zoneType = true ->
  JLGS.getLeafPropertiesFromZone zoneType
  = JLGS.mkLeaf JsValue.NaN
      (JLGS.clamp (JsValue.memberLength zoneType) 0.5 1.5)
      JsValue.NaN JsValue.NaN JsValue.NaN.
Proof.
  intros Hkey. unfold JLGS.getLeafPropertiesFromZone. cbv zeta.
  rewrite (get_inherited _ _ (conditions_not_inherited _ Hkey) Hkey).
  reflexivity.
Qed.

Lemma morphLeafProperties_ofLeaf (fromProps toProps : LGS.LeafProperties)
    (progress : Q) :
  JLGS.morphLeafProperties (JLGS.ofLeaf fromProps) (JLGS.ofLeaf toProps)
    (JsValue.Num progress)
  = JLGS.ofLeaf (LGS.morphLeafProperties fromProps toProps progress).
Proof. reflexivity. Qed.

Lemma blendLeafProperties_ofLeaf (a b : LGS.LeafProperties) (weightB : Q) :
  JLMH.blendLeafProperties (JLGS.ofLeaf a) (JsValue.Literal (JLGS.ofLeaf b))
    (JsValue.Num weightB)
  = JLGS.ofLeaf (LMH.blendLeafProperties a b weightB).
Proof. reflexivity. Qed.

(** C5: the range invariant does not hold for every input.  On the key
    ['constructor'] the lookup [conditions[zoneType]] finds the member
    inherited from [Object.prototype], the fallback is not taken, and the
    clamp of the missing fields is [NaN]: width, pointiness, surface and
    thickness are [NaN] (length is the clamped [Object.length], 1).  So it
    is for every inherited key, and a [NaN] progress passes through the
    interpolator.  For every other type string the mapper, and on rational
    inputs the interpolator and the history blend, stay inside the ranges;
    a blend whose unclamped width is 1.4 has width 1. *)
Theorem getLeafPropertiesFromZone_constructor_out_of_range :
  JLGS.getLeafPropertiesFromZone "constructor"
    = JLGS.mkLeaf JsValue.NaN (JsValue.Num 1) JsValue.NaN JsValue.NaN
        JsValue.NaN /\
  ~ JLGS.in_range (JLGS.getLeafPropertiesFromZone "constructor") /\
  (forall zoneType,
      JsValue.inherited zoneType = true ->
      JLGS.width (JLGS.getLeafPropertiesFromZone zoneType) = JsValue.NaN /\
      ~ JLGS.in_range (JLGS.getLeafPropertiesFromZone zoneType)) /\
  (forall fromProps toProps,
      JLGS.width (JLGS.morphLeafProperties fromProps toProps JsValue.NaN)
      = JsValue.NaN) /\
  (forall zoneType,
      JsValue.inherited zoneType = false ->
      JLGS.getLeafPropertiesFromZone zoneType
        = JLGS.ofLeaf (LGS.getLeafPropertiesFromZone zoneType) /\
      JLGS.in_range (JLGS.getLeafPropertiesFromZone zoneType)) /\
  (forall fromProps toProps progress,
      JLGS.in_range
        (JLGS.morphLeafProperties (JLGS.ofLeaf fromProps) (JLGS.ofLeaf toProps)
           (JsValue.Num progress))) /\
  (forall a b weightB,
      JLGS.in_range
        (JLMH.blendLeafProperties (JLGS.ofLeaf a)
           (JsValue.Literal (JLGS.ofLeaf b)) (JsValue.Num weightB))) /\
  JLGS.width
    (JLMH.blendLeafProperties
       (JLGS.ofLeaf (LGS.mkLeaf 1.4 1 0.5 0.3 0.1))
       (JsValue.Literal (JLGS.ofLeaf (LGS.mkLeaf 1.4 1 0.5 0.3 0.1)))
       (JsValue.Num 0.5))
    = JsValue.Num 1.
Proof.
  split; [vm_compute; reflexivity |].
  split; [apply width_NaN_not_in_range; vm_compute; reflexivity |].
  split.
  { intros zoneType Hkey.
    assert (Hw : JLGS.width (JLGS.getLeafPropertiesFromZone zoneType)
                 = JsValue.NaN).
    { rewrite (getLeafPropertiesFromZone_inherited _ Hkey). reflexivity. }
    split; [exact Hw | apply width_NaN_not_in_range; exact Hw]. }
  split; [intros fromProps toProps; reflexivity |].
  split.
  { intros zoneType Hkey.
    rewrite (getLeafPropertiesFromZone_ofLeaf _ Hkey).
    split; [reflexivity |].
    apply in_range_ofLeaf, getLeafPropertiesFromZone_in_range. }
  split.
  { intros fromProps toProps progress. rewrite morphLeafProperties_ofLeaf.
    apply in_range_ofLeaf, morphLeafProperties_in_range. }
  split; [| reflexivity].
  intros a b weightB. rewrite blendLeafProperties_ofLeaf.
  apply in_range_ofLeaf, blendLeafProperties_in_range.
Qed.

(** ** The accumulated morph *)

(** With the fixed weight 0.5 the weights of the blend are both 0.5. *)
Lemma blendLeafProperties_half (a b : LGS.LeafProperties) :
  LMH.blendLeafProperties a b 0.5 = LMH.blend_spec a b.
Proof. reflexivity. Qed.

Lemma accumulateStep_known (h : gmap string LGS.LeafProperties)
    (acc p : LGS.LeafProperties) (zoneId : string) :
  h !! zoneId = Some p -> LMH.accumulateStep h acc zoneId = LMH.blend_spec acc p.
Proof.
  intros Hp. unfold LMH.accumulateStep. rewrite Hp.
  apply blendLeafProperties_half.
Qed.

Lemma accumulateStep_unknown (h : gmap string LGS.LeafProperties)
    (acc : LGS.LeafProperties) (zoneId : string) :
  h !! zoneId = None -> LMH.accumulateStep h acc zoneId = acc.
Proof. intros Hp. unfold LMH.accumulateStep. rewrite Hp. reflexivity. Qed.

(** The loop of [getAccumulatedMorph] from any accumulator: ids without an
    entry drop out, the others contribute their recorded properties. *)
Lemma accumulate_loop_omap (h : gmap string LGS.LeafProperties)
    (zoneIds : list string) :
  forall acc,
    List.fold_left (LMH.accumulateStep h) zoneIds acc =
    List.fold_left LMH.blend_spec (omap (fun i => h !! i) zoneIds) acc.
Proof.
  induction zoneIds as [| zoneId rest IH]; intros acc; [reflexivity |].
  cbn [List.fold_left omap list_omap].
  destruct (h !! zoneId) as [p |] eqn:Hp.
  - rewrite (accumulateStep_known h acc p zoneId Hp). apply IH.
  - rewrite (accumulateStep_unknown h acc zoneId Hp). apply IH.
Qed.

Lemma omap_all_recorded (h : gmap string LGS.LeafProperties)
    (zoneIds : list string) (recorded : list LGS.LeafProperties) :
  Forall2 (fun zoneId p => h !! zoneId = Some p) zoneIds recorded ->
  omap (fun i => h !! i) zoneIds = recorded.
Proof.
  induction 1 as [| zoneId p ids ps Hp _ IH]; [reflexivity |].
  cbn [omap list_omap]. rewrite Hp, IH. reflexivity.
Qed.

Lemma getAccumulatedMorph_nonempty (zoneIds : list string)
    (st : LMH.HistoryState) :
  zoneIds <> [] ->
  LMH.getAccumulatedMorph zoneIds st =
  (List.fold_left (LMH.accumulateStep (LMH.morphHistory st)) zoneIds
     LMH.DEFAULT_LEAF,
   {| LMH.morphHistory := LMH.morphHistory st;
      LMH.currentMorph :=
        List.fold_left (LMH.accumulateStep (LMH.morphHistory st)) zoneIds
          LMH.DEFAULT_LEAF |}).
Proof.
  intros Hne. destruct zoneIds as [| zoneId rest]; [contradiction |].
  reflexivity.
Qed.

(** The clamp of the specification and the clamp of the code agree. *)
Lemma clamp_to_code (v lo hi : Q) :
  lo <= hi -> Specification.clamp_to lo hi v == LMH.clamp v lo hi.
Proof.
  intros Hle. unfold Specification.clamp_to, LMH.clamp, Js.Math_max,
    Js.Math_min.
  destruct (Q.min_spec hi v) as [[H1 E1] | [H1 E1]];
    destruct (Q.max_spec lo (Qmin hi v)) as [[H2 E2] | [H2 E2]];
    rewrite E2; rewrite E1 in *;
    destruct (Qle_bool lo v) eqn:Hlo;
    try (apply Qle_bool_iff in Hlo);
    try (apply not_true_iff_false in Hlo; rewrite Qle_bool_iff in Hlo);
    destruct (Qle_bool v hi) eqn:Hhi;
    try (apply Qle_bool_iff in Hhi);
    try (apply not_true_iff_false in Hhi; rewrite Qle_bool_iff in Hhi);
    lra.
Qed.

Lemma clamp_to_equiv (u v lo hi : Q) :
  u == v -> Specification.clamp_to lo hi u == Specification.clamp_to lo hi v.
Proof.
  intros Huv. unfold Specification.clamp_to.
  destruct (Qle_bool lo u) eqn:Hlu;
    try (apply Qle_bool_iff in Hlu);
    try (apply not_true_iff_false in Hlu; rewrite Qle_bool_iff in Hlu);
    destruct (Qle_bool lo v) eqn:Hlv;
    try (apply Qle_bool_iff in Hlv);
    try (apply not_true_iff_false in Hlv; rewrite Qle_bool_iff in Hlv);
    destruct (Qle_bool u hi) eqn:Hhu;
    try (apply Qle_bool_iff in Hhu);
    try (apply not_true_iff_false in Hhu; rewrite Qle_bool_iff in Hhu);
    destruct (Qle_bool v hi) eqn:Hhv;
    try (apply Qle_bool_iff in Hhv);
    try (apply not_true_iff_false in Hhv; rewrite Qle_bool_iff in Hhv);
    lra.
Qed.


(** One blend of the code against one blend of the specification, from
    accumulators that agree. *)
Lemma blend_code_spec (acc acc' recorded : LGS.LeafProperties) :
  LGS.leaf_equiv acc acc' ->
  LGS.leaf_equiv (LMH.blendLeafProperties acc recorded 0.5)
    (Specification.blend acc' recorded).
Proof.
  intros (Hw & Hl & Hq & Hs & Ht). rewrite blendLeafProperties_half.
  unfold LGS.leaf_equiv, LMH.blend_spec, Specification.blend;
    cbn [LGS.width LGS.length LGS.pointiness LGS.surface LGS.thickness].
  repeat split;
    (rewrite <- clamp_to_code by discriminate;
     apply clamp_to_equiv; first [rewrite Hw | rewrite Hl | rewrite Hq
                                 | rewrite Hs | rewrite Ht]; reflexivity).
Qed.

Lemma leaf_equiv_refl (p : LGS.LeafProperties) : LGS.leaf_equiv p p.
Proof. unfold LGS.leaf_equiv. repeat split; reflexivity. Qed.

Lemma fold_code_spec (recorded : list LGS.LeafProperties) :
  forall acc acc',
    LGS.leaf_equiv acc acc' ->
    LGS.leaf_equiv (List.fold_left LMH.blend_spec recorded acc)
      (List.fold_left Specification.blend recorded acc').
Proof.
  induction recorded as [| p rest IH]; intros acc acc' Hacc; [exact Hacc |].
  cbn [List.fold_left]. apply IH. rewrite <- blendLeafProperties_half.
  apply blend_code_spec. exact Hacc.
Qed.

(** With own records, or names that are not inherited, the loop over
    JavaScript values is the loop over rationals. *)
Lemma accumulateStep_ofLeaf (h : gmap string LGS.LeafProperties)
    (acc : LGS.LeafProperties) (zoneId : string) :
  is_Some (h !! zoneId) \/ JsValue.inherited zoneId = false ->
  JLMH.accumulateStep (JLGS.ofLeaf <$> h) (JLGS.ofLeaf acc) zoneId
  = JLGS.ofLeaf (LMH.accumulateStep h acc zoneId).
Proof.
  intros Hplain. unfold JLMH.accumulateStep, LMH.accumulateStep.
  destruct (h !! zoneId) as [p |] eqn:Hp.
  - rewrite (get_own _ zoneId (JLGS.ofLeaf p))
      by (rewrite lookup_fmap, Hp; reflexivity).
    apply blendLeafProperties_ofLeaf.
  - destruct Hplain as [[p Hsome] | Hkey]; [discriminate |].
    rewrite (get_not_inherited _ _ Hkey), lookup_fmap, Hp. reflexivity.
Qed.

Lemma accumulate_loop_ofLeaf (h : gmap string LGS.LeafProperties)
    (zoneIds : list string) :
  Forall (fun i => is_Some (h !! i) \/ JsValue.inherited i = false) zoneIds ->
  forall acc,
    List.fold_left (JLMH.accumulateStep (JLGS.ofLeaf <$> h)) zoneIds
      (JLGS.ofLeaf acc)
    = JLGS.ofLeaf (List.fold_left (LMH.accumulateStep h) zoneIds acc).
Proof.
  induction 1 as [| zoneId rest Hid _ IH]; intros acc; [reflexivity |].
  cbn [List.fold_left]. rewrite (accumulateStep_ofLeaf _ _ _ Hid). apply IH.
Qed.

Lemma getAccumulatedMorph_ofState (zoneIds : list string)
    (st : LMH.HistoryState) :
  Forall (fun i => is_Some (LMH.morphHistory st !! i)
                   \/ JsValue.inherited i = false) zoneIds ->
  JLMH.getAccumulatedMorph zoneIds (JLMH.ofState st)
  = (JLGS.ofLeaf (fst (LMH.getAccumulatedMorph zoneIds st)),
     JLMH.ofState (snd (LMH.getAccumulatedMorph zoneIds st))).
Proof.
  intros Hplain. destruct zoneIds as [| zoneId rest]; [reflexivity |].
  unfold JLMH.getAccumulatedMorph, LMH.getAccumulatedMorph.
  cbn [List.length Nat.eqb fst snd JLMH.ofState JLMH.morphHistory
    LMH.morphHistory LMH.currentMorph].
  change JLMH.DEFAULT_LEAF with (JLGS.ofLeaf LMH.DEFAULT_LEAF).
  rewrite (accumulate_loop_ofLeaf _ _ Hplain). reflexivity.
Qed.

Lemma all_recorded_plain (h : gmap string LGS.LeafProperties)
    (zoneIds : list string) (recorded : list LGS.LeafProperties) :
  Forall2 (fun zoneId p => h !! zoneId = Some p) zoneIds recorded ->
  Forall (fun i => is_Some (h !! i) \/ JsValue.inherited i = false) zoneIds.
Proof.
  induction 1 as [| zoneId p ids ps Hp _ IH]; constructor; [| exact IH].
  left. exists p. exact Hp.
Qed.

(** C2: for a non-empty list of zone ids that all have a recorded entry,
    [getAccumulatedMorph] returns (and stores) the left fold from
    [DEFAULT_LEAF] over the recorded properties in visitation order with the
    per-property blend clamp(accumulator * 0.5 + recorded * 0.5), the clamp
    being to [0.5, 1.5] for length and to [0, 1] for the other fields; the
    lookups find own records, so the same holds at the level of JavaScript
    values.  After a speed zone the accumulated width is 0.65, after a jump
    zone next 0.475; a recorded width of 7 accumulates to width 1. *)
Theorem getAccumulatedMorph_is_fold :
  (forall st zoneIds recorded,
      zoneIds <> [] ->
      Forall2 (fun zoneId p => LMH.morphHistory st !! zoneId = Some p)
        zoneIds recorded ->
      LGS.leaf_equiv (fst (LMH.getAccumulatedMorph zoneIds st))
        (Specification.accumulated recorded) /\
      LMH.currentMorph (snd (LMH.getAccumulatedMorph zoneIds st))
        = fst (LMH.getAccumulatedMorph zoneIds st) /\
      JLMH.getAccumulatedMorph zoneIds (JLMH.ofState st)
        = (JLGS.ofLeaf (fst (LMH.getAccumulatedMorph zoneIds st)),
           JLMH.ofState (snd (LMH.getAccumulatedMorph zoneIds st)))) /\
  LMH.DEFAULT_LEAF = LGS.mkLeaf 0.5 1 0.5 0.3 0.1 /\
  LGS.width (LGS.getLeafPropertiesFromZone "speed_boost") = 0.8 /\
  LGS.width (LGS.getLeafPropertiesFromZone "jump_boost") = 0.3 /\
  LGS.width (fst (LMH.getAccumulatedMorph ["speed_boost"%string] LMH.visited_speed))
    == 0.65 /\
  LGS.width
    (fst (LMH.getAccumulatedMorph
            ["speed_boost"%string; "jump_boost"%string] LMH.visited_speed_jump))
    == 0.475 /\
  LGS.leaf_equiv
    (fst (LMH.getAccumulatedMorph ["wild"%string]
            (LMH.recordZoneMorph "wild" (LGS.mkLeaf 7 (-3) 2 9 4)
               LMH.initialHistory)))
    (LGS.mkLeaf 1 0.5 1 1 1).
Proof.
  split.
  - intros st zoneIds recorded Hne Hall.
    split; [| split].
    + rewrite (getAccumulatedMorph_nonempty zoneIds st Hne). cbn [fst].
      rewrite accumulate_loop_omap, (omap_all_recorded _ _ _ Hall).
      apply fold_code_spec. apply leaf_equiv_refl.
    + rewrite (getAccumulatedMorph_nonempty zoneIds st Hne). reflexivity.
    + apply getAccumulatedMorph_ofState.
      apply (all_recorded_plain _ _ _ Hall).
  - repeat split; vm_compute; reflexivity.
Qed.

Lemma getAccumulatedMorph_is_fold_witness :
  LGS.leaf_equiv
    (fst (LMH.getAccumulatedMorph
            ["speed_boost"%string; "jump_boost"%string] LMH.visited_speed_jump))
    (Specification.accumulated
       [LGS.getLeafPropertiesFromZone "speed_boost";
        LGS.getLeafPropertiesFromZone "jump_boost"]).
Proof.
  apply (proj1 getAccumulatedMorph_is_fold LMH.visited_speed_jump
           ["speed_boost"%string; "jump_boost"%string]
           [LGS.getLeafPropertiesFromZone "speed_boost";
            LGS.getLeafPropertiesFromZone "jump_boost"]).
  - discriminate.
  - repeat constructor.
Defined.

(** The loop over JavaScript values: an id that reads nothing drops out,
    every other id contributes what it reads. *)
Lemma accumulate_loop_get (h : gmap string JLGS.LeafProperties)
    (zoneIds : list string) :
  forall acc,
    List.fold_left (JLMH.accumulateStep h) zoneIds acc =
    List.fold_left
      (fun accumulated recorded =>
         JLMH.blendLeafProperties accumulated recorded (JsValue.Num 0.5))
      (omap (JsValue.get h) zoneIds) acc.
Proof.
  induction zoneIds as [| zoneId rest IH]; intros acc; [reflexivity |].
  cbn [List.fold_left omap list_omap]. unfold JLMH.accumulateStep at 2.
  destruct (JsValue.get h zoneId) as [recorded |]; apply IH.
Qed.

Lemma omap_drop_none {A B : Type} (f : A -> option B) (pre post : list A)
    (a : A) :
  f a = None -> omap f (pre ++ a :: post) = omap f (pre ++ post).
Proof.
  intros Hnone. induction pre as [| b pre IH].
  - cbn [app omap list_omap]. rewrite Hnone. reflexivity.
  - cbn [app omap list_omap]. rewrite IH. reflexivity.
Qed.

Lemma omap_all_none {A B : Type} (f : A -> option B) (l : list A) :
  Forall (fun a => f a = None) l -> omap f l = [].
Proof.
  induction 1 as [| a l Ha _ IH]; [reflexivity |].
  cbn [omap list_omap]. rewrite Ha. exact IH.
Qed.

Lemma get_unknown {A : Type} (own : gmap string A) (key : string) :
  own !! key = None -> JsValue.inherited key = false ->
  JsValue.get own key = None.
Proof.
  intros Hown Hkey. rewrite (get_not_inherited _ _ Hkey), Hown. reflexivity.
Qed.

Lemma getAccumulatedMorph_values_nonempty (zoneIds : list string)
    (st : JLMH.HistoryState) :
  zoneIds <> [] ->
  JLMH.getAccumulatedMorph zoneIds st =
  (List.fold_left (JLMH.accumulateStep (JLMH.morphHistory st)) zoneIds
     JLMH.DEFAULT_LEAF,
   {| JLMH.morphHistory := JLMH.morphHistory st;
      JLMH.currentMorph :=
        List.fold_left (JLMH.accumulateStep (JLMH.morphHistory st)) zoneIds
          JLMH.DEFAULT_LEAF |}).
Proof.
  intros Hne. destruct zoneIds as [| zoneId rest]; [contradiction |].
  reflexivity.
Qed.

(** C8, as the code has it: an id without a history entry that is not the
    name of a member of [Object.prototype] is skipped, the accumulator keeps
    the value it had; the result is the fold over what the remaining ids
    read, which is [DEFAULT_LEAF] when they are all of this kind. *)
Theorem getAccumulatedMorph_skips_unknown :
  forall st pre zoneId post,
    JLMH.morphHistory st !! zoneId = None ->
    JsValue.inherited zoneId = false ->
    fst (JLMH.getAccumulatedMorph (pre ++ zoneId :: post) st)
    = List.fold_left
        (fun accumulated recorded =>
           JLMH.blendLeafProperties accumulated recorded (JsValue.Num 0.5))
        (omap (JsValue.get (JLMH.morphHistory st)) (pre ++ post))
        JLMH.DEFAULT_LEAF /\
    (forall acc, JLMH.accumulateStep (JLMH.morphHistory st) acc zoneId = acc) /\
    (Forall (fun i => JLMH.morphHistory st !! i = None
                      /\ JsValue.inherited i = false) (pre ++ post) ->
     fst (JLMH.getAccumulatedMorph (pre ++ zoneId :: post) st)
     = JLMH.DEFAULT_LEAF).
Proof.
  intros st pre zoneId post Hnone Hkey.
  pose proof (get_unknown _ _ Hnone Hkey) as Hget.
  assert (Hres : fst (JLMH.getAccumulatedMorph (pre ++ zoneId :: post) st)
                 = List.fold_left
                     (fun accumulated recorded =>
                        JLMH.blendLeafProperties accumulated recorded
                          (JsValue.Num 0.5))
                     (omap (JsValue.get (JLMH.morphHistory st)) (pre ++ post))
                     JLMH.DEFAULT_LEAF).
  { rewrite getAccumulatedMorph_values_nonempty by (destruct pre; discriminate).
    cbn [fst]. rewrite accumulate_loop_get, omap_drop_none by exact Hget.
    reflexivity. }
  split; [exact Hres |]. split.
  - intros acc. unfold JLMH.accumulateStep. rewrite Hget. reflexivity.
  - intros Hall. rewrite Hres, omap_all_none; [reflexivity |].
    eapply List.Forall_impl; [| exact Hall].
    intros i [Hi Hk]. apply get_unknown; assumption.
Qed.

Lemma getAccumulatedMorph_skips_unknown_witness :
  fst (JLMH.getAccumulatedMorph
         ([] ++ "volcano"%string :: ["wild"%string]) JLMH.visited_wild)
  = List.fold_left
      (fun accumulated recorded =>
         JLMH.blendLeafProperties accumulated recorded (JsValue.Num 0.5))
      (omap (JsValue.get (JLMH.morphHistory JLMH.visited_wild))
         ([] ++ ["wild"%string]))
      JLMH.DEFAULT_LEAF.
Proof.
  apply (proj1 (getAccumulatedMorph_skips_unknown JLMH.visited_wild
                  [] "volcano"%string ["wild"%string] eq_refl eq_refl)).
Defined.

(** C8, as stated, fails: with a speed zone recorded, the list of that zone
    followed by an unknown id accumulates width 0.65; a slot holding
    [DEFAULT_LEAF] would blend it down to 0.575, and an accumulator put back
    to [DEFAULT_LEAF] would have width 0.5. *)
Lemma unknown_slot_is_not_default_leaf :
  LGS.width
    (fst (LMH.getAccumulatedMorph
            ["speed_boost"%string; "volcano"%string] LMH.visited_speed)) == 0.65 /\
  LGS.width
    (LMH.accumulated_default_slot (LMH.morphHistory LMH.visited_speed)
       ["speed_boost"%string; "volcano"%string]) == 0.575 /\
  ~ LGS.leaf_equiv
      (fst (LMH.getAccumulatedMorph
              ["speed_boost"%string; "volcano"%string] LMH.visited_speed))
      (LMH.accumulated_default_slot (LMH.morphHistory LMH.visited_speed)
         ["speed_boost"%string; "volcano"%string]) /\
  ~ LGS.leaf_equiv
      (fst (LMH.getAccumulatedMorph
              ["speed_boost"%string; "volcano"%string] LMH.visited_speed))
      LMH.DEFAULT_LEAF.
Proof.
  split; [vm_compute; reflexivity |]. split; [vm_compute; reflexivity |].
  split; intros [Hw _]; vm_compute in Hw; discriminate.
Qed.

(** C10: on the empty list [getAccumulatedMorph] returns the stored current
    morph and leaves the state alone; the stored value is [DEFAULT_LEAF] at
    the start and after a reset, and the result of the last accumulation over
    a non-empty list otherwise, so it can differ from [DEFAULT_LEAF]. *)
Theorem getAccumulatedMorph_empty_returns_current :
  (forall st, LMH.getAccumulatedMorph [] st = (LMH.currentMorph st, st)) /\
  fst (LMH.getAccumulatedMorph [] LMH.initialHistory) = LMH.DEFAULT_LEAF /\
  (forall st,
      fst (LMH.getAccumulatedMorph [] (LMH.resetHistory st)) = LMH.DEFAULT_LEAF) /\
  (forall zoneId zoneIds st,
      fst (LMH.getAccumulatedMorph []
             (snd (LMH.getAccumulatedMorph (zoneId :: zoneIds) st)))
      = fst (LMH.getAccumulatedMorph (zoneId :: zoneIds) st)) /\
  LGS.width
    (fst (LMH.getAccumulatedMorph []
            (snd (LMH.getAccumulatedMorph ["speed_boost"%string] LMH.visited_speed))))
    == 0.65 /\
  ~ LGS.leaf_equiv
      (fst (LMH.getAccumulatedMorph []
              (snd (LMH.getAccumulatedMorph ["speed_boost"%string]
                      LMH.visited_speed))))
      LMH.DEFAULT_LEAF.
Proof.
  split; [reflexivity |]. split; [reflexivity |]. split; [reflexivity |].
  split; [reflexivity |]. split; [vm_compute; reflexivity |].
  intros [Hw _]. vm_compute in Hw. discriminate.
Qed.

(** ** Membership and dominance *)

Lemma distanceToSquared_nonneg (a b : IZC.Vector3) :
  (0 <= Q2R (IZC.distanceToSquared a b))%R.
Proof.
  unfold IZC.distanceToSquared. cbv zeta.
  rewrite !Q2R_plus, !Q2R_mult.
  set (dx := Q2R (IZC.x a - IZC.x b)).
  set (dy := Q2R (IZC.y a - IZC.y b)).
  set (dz := Q2R (IZC.z a - IZC.z b)).
  nra.
Qed.

(** The rational test decides the comparison of the Euclidean distance with
    the radius. *)
Lemma distanceTo_leb_spec (a b : IZC.Vector3) (r : Q) :
  IZC.distanceTo_leb a b r = true <-> (IZC.distanceTo a b <= Q2R r)%R.
Proof.
  unfold IZC.distanceTo_leb, IZC.distanceTo.
  pose proof (distanceToSquared_nonneg a b) as Hd.
  rewrite andb_true_iff, !Qle_bool_iff. split.
  - intros [Hr Hsq].
    apply Qle_Rle in Hr. apply Qle_Rle in Hsq.
    rewrite Q2R_mult in Hsq. change (Q2R 0) with (Q2R (0 # 1)) in Hr.
    assert (H0 : Q2R 0 = 0%R) by (unfold Q2R; cbn; lra).
    rewrite H0 in Hr.
    rewrite <- (sqrt_square (Q2R r)) by exact Hr.
    apply sqrt_le_1_alt. exact Hsq.
  - intros Hle.
    pose proof (sqrt_pos (Q2R (IZC.distanceToSquared a b))) as Hs.
    assert (H0 : Q2R 0 = 0%R) by (unfold Q2R; cbn; lra).
    assert (Hr : (0 <= Q2R r)%R) by lra.
    split.
    + apply Rle_Qle. rewrite H0. exact Hr.
    + apply Rle_Qle. rewrite Q2R_mult.
      rewrite <- (sqrt_sqrt (Q2R (IZC.distanceToSquared a b))) by exact Hd.
      apply Rmult_le_compat; assumption.
Qed.

Lemma isInside_spec (p : IZC.Vector3) (zone : IZC.InfluenceZone) :
  IZC.isInside p zone = true <->
  (IZC.distanceTo p (IZC.position zone) <= Q2R (IZC.radius zone))%R.
Proof. apply distanceTo_leb_spec. Qed.

Lemma resolve_active (p : IZC.Vector3) (zs : list IZC.InfluenceZone) :
  IZC.activeZones (IZC.resolve p zs) = List.filter (IZC.isInside p) zs.
Proof. reflexivity. Qed.

Lemma head_of_filter {A : Type} (f : A -> bool) (l : list A) :
  (if Nat.ltb 0 (List.length (List.filter f l))
   then List.nth_error (List.filter f l) 0 else None) = List.find f l.
Proof.
  induction l as [| a l IH]; [reflexivity |].
  cbn [List.filter List.find]. destruct (f a); [reflexivity | exact IH].
Qed.

Lemma resolve_dominant (p : IZC.Vector3) (zs : list IZC.InfluenceZone) :
  IZC.dominantZone (IZC.resolve p zs) = List.find (IZC.isInside p) zs.
Proof. apply (head_of_filter (IZC.isInside p) zs). Qed.


Lemma updatePlayerZones_resolve (p : IZC.Vector3) (st : IZC.ProviderState) :
  IZC.playerZoneState (IZC.updatePlayerZones p st) = IZC.resolve p (IZC.zones st).
Proof. reflexivity. Qed.

Lemma contains_iff_isInside (p : IZC.Vector3) (zone : IZC.InfluenceZone) :
  IZC.contains p zone <-> IZC.isInside p zone = true.
Proof. unfold IZC.contains. symmetry. apply isInside_spec. Qed.




(** ** Membership in binary64 arithmetic *)

Lemma float_leb_of_eqb (a b : float) :
  (a =? b)%float = true -> (a <=? b)%float = true.
Proof.
  rewrite FloatAxioms.eqb_spec, FloatAxioms.leb_spec. unfold SFeqb, SFleb.
  destruct (SFcompare (Prim2SF a) (Prim2SF b)) as [[| |] |];
    try discriminate; reflexivity.
Qed.

Lemma float_is_nan_spec (a : float) :
  PrimFloat.is_nan a = true -> Prim2SF a = S754_nan.
Proof.
  unfold PrimFloat.is_nan. rewrite FloatAxioms.eqb_spec.
  unfold SFeqb, SFcompare.
  destruct (Prim2SF a) as [s | s | | s m e]; try reflexivity.
  - discriminate.
  - destruct s; discriminate.
  - destruct s; rewrite Z.compare_refl, Pos.compare_cont_refl; discriminate.
Qed.

Lemma float_leb_nan (a b : float) :
  PrimFloat.is_nan a = true \/ PrimFloat.is_nan b = true ->
  (a <=? b)%float = false.
Proof.
  rewrite FloatAxioms.leb_spec. unfold SFleb, SFcompare.
  intros [Ha | Hb].
  - rewrite (float_is_nan_spec a Ha). reflexivity.
  - rewrite (float_is_nan_spec b Hb). destruct (Prim2SF a); reflexivity.
Qed.

Lemma float_resolve_active (p : FIZC.Vector3) (zs : list FIZC.InfluenceZone) :
  FIZC.activeZones (FIZC.resolve p zs) = List.filter (FIZC.isInside p) zs.
Proof. reflexivity. Qed.

(** C4, as stated, fails in the arithmetic the code runs in.  At the doubles
    nearest to (0.6, 0.8, 0) the computed distance to the origin is 1, so a
    zone of radius 1 there is active, while the Euclidean distance of these
    very doubles exceeds 1; and 2^700 away from the centre of a zone of
    radius 2^1000 the squared distance overflows, the computed distance is
    infinite and the zone is not active, while the position is well inside
    it. *)
Lemma computed_distance_is_not_euclidean :
  (FIZC.distanceTo FIZC.nearUnit (FIZC.position FIZC.unitZone) = 1%float /\
   FIZC.activeZones (FIZC.resolve FIZC.nearUnit [FIZC.unitZone])
     = [FIZC.unitZone] /\
   exists p zone,
     FIZC.exactVector3 FIZC.nearUnit = Some p /\
     FIZC.exactZone FIZC.unitZone = Some zone /\
     ~ IZC.contains p zone /\
     IZC.activeZones (IZC.resolve p [zone]) = []) /\
  (FIZC.distanceTo FIZC.farAway (FIZC.position FIZC.hugeZone) = infinity /\
   FIZC.activeZones (FIZC.resolve FIZC.farAway [FIZC.hugeZone]) = [] /\
   exists p zone,
     FIZC.exactVector3 FIZC.farAway = Some p /\
     FIZC.exactZone FIZC.hugeZone = Some zone /\
     IZC.contains p zone /\
     IZC.activeZones (IZC.resolve p [zone]) = [zone]).
Proof.
  split.
  - split; [vm_compute; reflexivity |]. split; [vm_compute; reflexivity |].
    eexists. eexists.
    split; [vm_compute; reflexivity |]. split; [vm_compute; reflexivity |].
    split; [| vm_compute; reflexivity].
    intros Hin. apply contains_iff_isInside in Hin. vm_compute in Hin.
    discriminate.
  - split; [vm_compute; reflexivity |]. split; [vm_compute; reflexivity |].
    eexists. eexists.
    split; [vm_compute; reflexivity |]. split; [vm_compute; reflexivity |].
    split; [| vm_compute; reflexivity].
    apply contains_iff_isInside. vm_compute. reflexivity.
Qed.

(** C4, as the code has it: the active zones are the zones of the registry,
    in registry order, whose distance from the position to the centre as
    computed in double precision (the rounded square root of the rounded sum
    of the squared coordinate differences) compares at most the radius; a
    computed distance equal to the radius counts as inside, and a zone whose
    radius or computed distance is [NaN] is never active. *)
Theorem active_zones_are_zones_within_computed_distance :
  forall p zs,
    (forall zone,
        In zone (FIZC.activeZones (FIZC.resolve p zs)) <->
        In zone zs /\
        (FIZC.distanceTo p (FIZC.position zone) <=? FIZC.radius zone)%float
        = true) /\
    FIZC.activeZones (FIZC.resolve p zs) = List.filter (FIZC.isInside p) zs /\
    (forall zone,
        In zone zs ->
        (FIZC.distanceTo p (FIZC.position zone) =? FIZC.radius zone)%float
        = true ->
        In zone (FIZC.activeZones (FIZC.resolve p zs))) /\
    (forall zone,
        PrimFloat.is_nan (FIZC.distanceTo p (FIZC.position zone)) = true \/
        PrimFloat.is_nan (FIZC.radius zone) = true ->
        ~ In zone (FIZC.activeZones (FIZC.resolve p zs))) /\
    (FIZC.distanceTo FIZC.onBoundary (FIZC.position FIZC.zoneA)
       = FIZC.radius FIZC.zoneA /\
     FIZC.activeZones (FIZC.resolve FIZC.onBoundary [FIZC.zoneA])
       = [FIZC.zoneA]).
Proof.
  intros p zs.
  assert (Hmem : forall zone,
             In zone (FIZC.activeZones (FIZC.resolve p zs)) <->
             In zone zs /\
             (FIZC.distanceTo p (FIZC.position zone) <=? FIZC.radius zone)%float
             = true).
  { intros zone. rewrite float_resolve_active, List.filter_In. reflexivity. }
  split; [exact Hmem |]. split; [apply float_resolve_active |].
  split; [| split].
  - intros zone Hin Heq. apply Hmem. split; [exact Hin |].
    apply float_leb_of_eqb. exact Heq.
  - intros zone Hnan Hin. apply Hmem in Hin as [_ Hle].
    rewrite (float_leb_nan _ _ Hnan) in Hle. discriminate.
  - split; vm_compute; reflexivity.
Qed.

(** ** The transition state machine *)

(** The key read for the source of a transition, [previousZoneType.current
    || 'default'], maps to the same properties as the previous type itself:
    neither the empty string nor 'default' is a key of the table. *)
Lemma previous_or_default (previous : string) :
  LGS.getLeafPropertiesFromZone (Js.or_string previous "default")
  = LGS.getLeafPropertiesFromZone previous.
Proof.
  unfold Js.or_string. destruct (String.eqb previous "") eqn:He.
  - apply String.eqb_eq in He. subst previous. reflexivity.
  - reflexivity.
Qed.

Section Transition.

Variable BufferGeometry : Type.
Variable emptyGeometry : BufferGeometry.
Variable buildGeometry : LGS.LeafProperties -> BufferGeometry.

Local Abbreviation generate := (LGS.generateLeafGeometry BufferGeometry buildGeometry).
Local Abbreviation progress r := (ALM.morphProgress (ALM.morphStateRef r)).
Local Abbreviation transitioning r := (ALM.isTransitioning (ALM.morphStateRef r)).

Lemma zoneEffect_changed (zoneType : string) (r : ALM.Refs BufferGeometry) :
  zoneType <> ALM.previousZoneType r ->
  ALM.zoneEffect buildGeometry zoneType r =
  ALM.mkRefs BufferGeometry
    (ALM.mkMorphState BufferGeometry
       (generate (LGS.getLeafPropertiesFromZone (ALM.previousZoneType r)))
       (generate (LGS.getLeafPropertiesFromZone zoneType))
       0 true)
    zoneType true (ALM.meshRef r) (ALM.materialRef r).
Proof.
  intros Hne. unfold ALM.zoneEffect.
  destruct (String.eqb zoneType (ALM.previousZoneType r)) eqn:He.
  - apply String.eqb_eq in He. contradiction.
  - rewrite previous_or_default. reflexivity.
Qed.

Lemma zoneEffect_same (r : ALM.Refs BufferGeometry) :
  ALM.zoneEffect buildGeometry (ALM.previousZoneType r) r = r.
Proof. unfold ALM.zoneEffect. rewrite String.eqb_refl. reflexivity. Qed.

(** C6: when the zone type differs from the previous one, in whatever state
    the transition is (idle or in flight at any progress), the effect stores
    the geometry of the previous type's mapped properties as the source and
    that of the new type's mapped properties as the target, sets progress to
    0 and raises the transitioning flag; the new morph state depends on the
    old refs through the previous zone type only. *)
Theorem zone_change_restarts_from_previous_mapping :
  forall (r : ALM.Refs BufferGeometry) (zoneType : string),
    zoneType <> ALM.previousZoneType r ->
    let r' := ALM.zoneEffect buildGeometry zoneType r in
    ALM.currentLeafGeometry (ALM.morphStateRef r')
      = generate (LGS.getLeafPropertiesFromZone (ALM.previousZoneType r)) /\
    ALM.targetLeafGeometry (ALM.morphStateRef r')
      = generate (LGS.getLeafPropertiesFromZone zoneType) /\
    progress r' = 0 /\
    transitioning r' = true /\
    ALM.previousZoneType r' = zoneType /\
    (forall other : ALM.Refs BufferGeometry,
        ALM.previousZoneType other = ALM.previousZoneType r ->
        ALM.morphStateRef (ALM.zoneEffect buildGeometry zoneType other)
        = ALM.morphStateRef r').
Proof.
  intros r zoneType Hne r'. subst r'.
  rewrite (zoneEffect_changed zoneType r Hne). cbn.
  repeat split.
  intros other Hsame.
  rewrite (zoneEffect_changed zoneType other) by (rewrite Hsame; exact Hne).
  rewrite Hsame. reflexivity.
Qed.

End Transition.

Lemma zone_change_restarts_from_previous_mapping_witness :
  0 < ALM.morphProgress (ALM.morphStateRef ALM.sampleInFlight) /\
  ALM.morphProgress (ALM.morphStateRef ALM.sampleInFlight) < 1 /\
  ALM.isTransitioning (ALM.morphStateRef ALM.sampleInFlight) = true /\
  ALM.currentLeafGeometry
    (ALM.morphStateRef
       (ALM.zoneEffect ALM.sampleBuild "speed_boost" ALM.sampleInFlight))
  = LGS.generateLeafGeometry LGS.LeafProperties ALM.sampleBuild
      (LGS.getLeafPropertiesFromZone "ice") /\
  ALM.morphProgress
    (ALM.morphStateRef
       (ALM.zoneEffect ALM.sampleBuild "speed_boost" ALM.sampleInFlight)) = 0.
Proof.
  split; [reflexivity |]. split; [reflexivity |]. split; [reflexivity |].
  pose proof (zone_change_restarts_from_previous_mapping
                LGS.LeafProperties ALM.sampleBuild ALM.sampleInFlight
                "speed_boost"%string) as H.
  cbv zeta in H. destruct H as (Hsrc & _ & Hprog & _).
  - discriminate.
  - split; [exact Hsrc | exact Hprog].
Defined.

Section Interpolator.

Variable BufferGeometry : Type.
Variable emptyGeometry : BufferGeometry.
Variable buildGeometry : LGS.LeafProperties -> BufferGeometry.

Local Abbreviation progress r := (ALM.morphProgress (ALM.morphStateRef r)).
Local Abbreviation transitioning r := (ALM.isTransitioning (ALM.morphStateRef r)).
Local Abbreviation mounted r := (ALM.meshRef r = true /\ ALM.materialRef r = true).

Lemma frame_unmounted (delta : Q) (r : ALM.Refs BufferGeometry) :
  negb (ALM.meshRef r) || negb (ALM.materialRef r) = true ->
  ALM.frame delta r = r.
Proof. intros Hg. unfold ALM.frame. rewrite Hg. reflexivity. Qed.

Lemma frame_idle (delta : Q) (r : ALM.Refs BufferGeometry) :
  transitioning r = false -> ALM.frame delta r = r.
Proof.
  intros Hidle. unfold ALM.frame.
  destruct (negb (ALM.meshRef r) || negb (ALM.materialRef r)); [reflexivity |].
  rewrite Hidle. reflexivity.
Qed.

Lemma frame_saturates (delta : Q) (r : ALM.Refs BufferGeometry) :
  mounted r -> transitioning r = true ->
  1 <= progress r + delta * 2 ->
  progress (ALM.frame delta r) = 1 /\
  transitioning (ALM.frame delta r) = false /\
  ALM.showSporesRef (ALM.frame delta r) = false.
Proof.
  intros [Hmesh Hmat] Htr Hge. unfold ALM.frame.
  rewrite Hmesh, Hmat, Htr. cbn [negb orb].
  assert (Hb : Qle_bool 1 (progress r + delta * 2) = true).
  { apply Qle_bool_iff. lra. }
  rewrite Hb. cbn. repeat split.
Qed.

Lemma frame_advances (delta : Q) (r : ALM.Refs BufferGeometry) :
  mounted r -> transitioning r = true ->
  progress r + delta * 2 < 1 ->
  progress (ALM.frame delta r) = progress r + delta * 2 /\
  transitioning (ALM.frame delta r) = true.
Proof.
  intros [Hmesh Hmat] Htr Hlt. unfold ALM.frame.
  rewrite Hmesh, Hmat, Htr. cbn [negb orb].
  assert (Hb : Qle_bool 1 (progress r + delta * 2) = false).
  { destruct (Qle_bool 1 (progress r + delta * 2)) eqn:Hb; [| reflexivity].
    apply Qle_bool_iff in Hb. lra. }
  rewrite Hb. cbn. split; reflexivity.
Qed.

Lemma progress_ok_frame (delta : Q) (r : ALM.Refs BufferGeometry) :
  0 <= delta -> ALM.progress_ok r -> ALM.progress_ok (ALM.frame delta r).
Proof.
  intros Hdelta Hok.
  destruct (negb (ALM.meshRef r) || negb (ALM.materialRef r)) eqn:Hguard.
  { rewrite frame_unmounted by exact Hguard. exact Hok. }
  apply orb_false_elim in Hguard as [Hmesh Hmat].
  apply negb_false_iff in Hmesh. apply negb_false_iff in Hmat.
  destruct (transitioning r) eqn:Htr.
  2:{ rewrite frame_idle by exact Htr. exact Hok. }
  destruct Hok as (H0 & H1 & Hlt).
  destruct (Qlt_le_dec (progress r + delta * 2) 1) as [Hbelow | Habove].
  - destruct (frame_advances delta r (conj Hmesh Hmat) Htr Hbelow) as [Hp Ht].
    unfold ALM.progress_ok. rewrite Hp. split; [lra |]. split; [lra |].
    intros _. lra.
  - destruct (frame_saturates delta r (conj Hmesh Hmat) Htr Habove)
      as (Hp & Ht & _).
    unfold ALM.progress_ok. rewrite Hp, Ht. split; [lra |]. split; [lra |].
    discriminate.
Qed.

Lemma progress_ok_zoneEffect (zoneType : string) (r : ALM.Refs BufferGeometry) :
  ALM.progress_ok r -> ALM.progress_ok (ALM.zoneEffect buildGeometry zoneType r).
Proof.
  intros Hok. unfold ALM.zoneEffect.
  destruct (String.eqb zoneType (ALM.previousZoneType r)); [exact Hok |].
  unfold ALM.progress_ok. cbn. split; [lra |]. split; [lra |]. intros _. lra.
Qed.

Lemma reachable_progress_ok (r : ALM.Refs BufferGeometry) :
  ALM.reachable BufferGeometry emptyGeometry buildGeometry r ->
  ALM.progress_ok r.
Proof.
  induction 1 as [| r r' _ IH Hstep].
  - unfold ALM.progress_ok. cbn. split; [lra |]. split; [lra |]. discriminate.
  - destruct Hstep as [r | zoneType r | delta r Hdelta].
    + exact IH.
    + apply progress_ok_zoneEffect. exact IH.
    + apply progress_ok_frame; assumption.
Qed.

(** C7: in every reachable state progress lies in [0,1]; a frame with
    positive elapsed time on a mounted, transitioning component strictly
    increases progress and keeps it at most 1; when the advanced progress
    reaches or exceeds 1 it is set to exactly 1 and the transitioning flag is
    cleared; and once the flag is clear, a step changes the morph state only
    if it is the zone effect for a zone type other than the previous one. *)
Theorem progress_monotone_and_saturating :
  forall r : ALM.Refs BufferGeometry,
    ALM.reachable BufferGeometry emptyGeometry buildGeometry r ->
    (0 <= progress r /\ progress r <= 1) /\
    (forall delta,
        0 < delta -> mounted r -> transitioning r = true ->
        progress r < progress (ALM.frame delta r) /\
        progress (ALM.frame delta r) <= 1) /\
    (forall delta,
        mounted r -> transitioning r = true ->
        1 <= progress r + delta * 2 ->
        progress (ALM.frame delta r) = 1 /\
        transitioning (ALM.frame delta r) = false) /\
    (forall delta,
        mounted r -> transitioning r = true ->
        progress r + delta * 2 < 1 ->
        progress (ALM.frame delta r) = progress r + delta * 2 /\
        transitioning (ALM.frame delta r) = true) /\
    (forall delta, transitioning r = false -> ALM.frame delta r = r) /\
    (forall r',
        transitioning r = false ->
        ALM.step BufferGeometry buildGeometry r r' ->
        ALM.morphStateRef r' = ALM.morphStateRef r \/
        exists zoneType,
          zoneType <> ALM.previousZoneType r /\
          r' = ALM.zoneEffect buildGeometry zoneType r).
Proof.
  intros r Hreach.
  destruct (reachable_progress_ok r Hreach) as (H0 & H1 & Hlt).
  split; [split; assumption |]. split; [| split; [| split; [| split]]].
  - intros delta Hdelta Hm Htr. specialize (Hlt Htr).
    destruct (Qlt_le_dec (progress r + delta * 2) 1) as [Hbelow | Habove].
    + destruct (frame_advances delta r Hm Htr Hbelow) as [Hp _].
      rewrite Hp. split; lra.
    + destruct (frame_saturates delta r Hm Htr Habove) as (Hp & _).
      rewrite Hp. split; lra.
  - intros delta Hm Htr Hge.
    destruct (frame_saturates delta r Hm Htr Hge) as (Hp & Ht & _).
    split; assumption.
  - intros delta Hm Htr Hbelow. apply frame_advances; assumption.
  - intros delta Hidle. apply frame_idle. exact Hidle.
  - intros r' Hidle Hstep.
    destruct Hstep as [r | zoneType r | delta r Hdelta].
    + left. reflexivity.
    + destruct (String.eqb zoneType (ALM.previousZoneType r)) eqn:He.
      * left. unfold ALM.zoneEffect. rewrite He. reflexivity.
      * right. exists zoneType. split; [| reflexivity].
        intros Heq. apply String.eqb_neq in He. contradiction.
    + left. rewrite frame_idle by exact Hidle. reflexivity.
Qed.

End Interpolator.

Lemma sampleMounted_reachable :
  ALM.reachable LGS.LeafProperties ALM.sampleEmpty ALM.sampleBuild
    ALM.sampleMounted.
Proof.
  unfold ALM.sampleMounted.
  eapply ALM.reach_step; [| apply ALM.step_zone].
  eapply ALM.reach_step; [| apply ALM.step_render].
  apply ALM.reach_init.
Qed.

Lemma progress_monotone_and_saturating_witness :
  ALM.morphProgress (ALM.morphStateRef ALM.sampleMounted)
  < ALM.morphProgress (ALM.morphStateRef (ALM.frame 0.1 ALM.sampleMounted)) /\
  ALM.morphProgress (ALM.morphStateRef (ALM.frame 0.1 ALM.sampleMounted)) <= 1.
Proof.
  apply (proj1 (proj2 (progress_monotone_and_saturating
                         LGS.LeafProperties ALM.sampleEmpty ALM.sampleBuild
                         ALM.sampleMounted sampleMounted_reachable)) 0.1).
  - reflexivity.
  - split; reflexivity.
  - reflexivity.
Defined.

(** * Further properties *)

(** ** The zone registry and the derived zone state *)

Lemma filter_filter_same {A : Type} (f : A -> bool) (l : list A) :
  List.filter f (List.filter f l) = List.filter f l.
Proof.
  induction l as [| a l IH]; [reflexivity |].
  cbn [List.filter]. destruct (f a) eqn:Ha.
  - cbn [List.filter]. rewrite Ha, IH. reflexivity.
  - exact IH.
Qed.

Lemma filter_all_true {A : Type} (f : A -> bool) (l : list A) :
  Forall (fun a => f a = true) l -> List.filter f l = l.
Proof.
  induction 1 as [| a l Ha _ IH]; [reflexivity |].
  cbn [List.filter]. rewrite Ha, IH. reflexivity.
Qed.

Lemma resolve_active_In (p : IZC.Vector3) (zs : list IZC.InfluenceZone)
    (zone : IZC.InfluenceZone) :
  In zone (IZC.activeZones (IZC.resolve p zs)) <->
  In zone zs /\ IZC.isInside p zone = true.
Proof. rewrite resolve_active. apply List.filter_In. Qed.

Lemma resolve_dominant_head (p : IZC.Vector3) (zs : list IZC.InfluenceZone) :
  IZC.dominantZone (IZC.resolve p zs)
  = List.head (IZC.activeZones (IZC.resolve p zs)).
Proof.
  rewrite resolve_active. cbn [IZC.resolve IZC.updatePlayerZones
    IZC.playerZoneState IZC.dominantZone IZC.zones].
  destruct (List.filter (IZC.isInside p) zs); reflexivity.
Qed.

Lemma resolve_dominant_In (p : IZC.Vector3) (zs : list IZC.InfluenceZone)
    (zone : IZC.InfluenceZone) :
  IZC.dominantZone (IZC.resolve p zs) = Some zone ->
  In zone zs /\ IZC.isInside p zone = true.
Proof. rewrite resolve_dominant. apply List.find_some. Qed.


(** X2: registering a zone appends it to the registration order: the active
    zones gain the new zone at the end when it contains the position, and a
    zone that was dominant stays dominant; the new zone becomes dominant only
    where no zone was. *)
Theorem addZone_keeps_dominant :
  forall (p : IZC.Vector3) (zone : IZC.InfluenceZone) (st : IZC.ProviderState),
    let before := IZC.playerZoneState (IZC.updatePlayerZones p st) in
    let after :=
      IZC.playerZoneState (IZC.updatePlayerZones p (IZC.addZone zone st)) in
    IZC.activeZones after
    = IZC.activeZones before ++ (if IZC.isInside p zone then [zone] else []) /\
    IZC.dominantZone after
    = match IZC.dominantZone before with
      | Some z => Some z
      | None => if IZC.isInside p zone then Some zone else None
      end.
Proof.
  intros p zone st before after. subst before after.
  rewrite !updatePlayerZones_resolve, !resolve_dominant, !resolve_active.
  cbn [IZC.addZone IZC.zones]. split.
  - rewrite List.filter_app. reflexivity.
  - induction (IZC.zones st) as [| z zs IH]; [reflexivity |].
    cbn [app List.find]. destruct (IZC.isInside p z); [reflexivity | exact IH].
Qed.

(** X3: [removeZone] drops every zone registered under the id and keeps the
    others; it is idempotent; it leaves the stored zone state as it was, and
    after the next [updatePlayerZones] no active zone and no dominant zone
    carries the id. *)
Theorem removeZone_removes_id :
  forall (zoneId : string) (st : IZC.ProviderState),
    (forall zone,
        In zone (IZC.zones (IZC.removeZone zoneId st)) <->
        In zone (IZC.zones st) /\ IZC.id zone <> zoneId) /\
    IZC.removeZone zoneId (IZC.removeZone zoneId st) = IZC.removeZone zoneId st /\
    IZC.playerZoneState (IZC.removeZone zoneId st) = IZC.playerZoneState st /\
    (forall p zone,
        In zone
          (IZC.activeZones
             (IZC.playerZoneState
                (IZC.updatePlayerZones p (IZC.removeZone zoneId st)))) ->
        IZC.id zone <> zoneId) /\
    (forall p zone,
        IZC.dominantZone
          (IZC.playerZoneState
             (IZC.updatePlayerZones p (IZC.removeZone zoneId st))) = Some zone ->
        IZC.id zone <> zoneId).
Proof.
  intros zoneId st.
  assert (Hmem : forall zone,
             In zone (IZC.zones (IZC.removeZone zoneId st)) <->
             In zone (IZC.zones st) /\ IZC.id zone <> zoneId).
  { intros zone. cbn [IZC.removeZone IZC.zones].
    rewrite List.filter_In, negb_true_iff, String.eqb_neq. reflexivity. }
  split; [exact Hmem |]. split; [| split; [reflexivity | split]].
  - unfold IZC.removeZone at 1 2.
    cbn [IZC.zones IZC.playerPosition IZC.playerZoneState].
    rewrite filter_filter_same. reflexivity.
  - intros p zone Hact. rewrite updatePlayerZones_resolve in Hact.
    apply resolve_active_In in Hact as [Hin _].
    apply Hmem in Hin. tauto.
  - intros p zone Hdom. rewrite updatePlayerZones_resolve in Hdom.
    apply resolve_dominant_In in Hdom as [Hin _].
    apply Hmem in Hin. tauto.
Qed.

(** X4: registering a zone under an id no registered zone carries and then
    removing that id gives the provider state back. *)
Theorem addZone_then_removeZone :
  forall (zone : IZC.InfluenceZone) (st : IZC.ProviderState),
    Forall (fun z => IZC.id z <> IZC.id zone) (IZC.zones st) ->
    IZC.removeZone (IZC.id zone) (IZC.addZone zone st) = st.
Proof.
  intros zone [zs pos pzs] Hfresh. cbn [IZC.zones] in Hfresh.
  unfold IZC.removeZone, IZC.addZone.
  cbn [IZC.zones IZC.playerPosition IZC.playerZoneState].
  rewrite List.filter_app. cbn [List.filter].
  rewrite String.eqb_refl. cbn [negb]. rewrite List.app_nil_r.
  rewrite filter_all_true; [reflexivity |].
  eapply Forall_impl; [exact Hfresh |].
  intros z Hz. cbn beta. apply negb_true_iff, String.eqb_neq. exact Hz.
Qed.

Lemma addZone_then_removeZone_witness :
  IZC.removeZone "B"
    (IZC.addZone IZC.zoneB (IZC.addZone IZC.zoneA IZC.initialProvider))
  = IZC.addZone IZC.zoneA IZC.initialProvider.
Proof.
  apply (addZone_then_removeZone IZC.zoneB
           (IZC.addZone IZC.zoneA IZC.initialProvider)).
  repeat constructor. discriminate.
Defined.






(** ** Clamping, the zone table and the interpolator *)

(** A clamped value is one of the two bounds or the value itself. *)
Lemma clamp_cases (v lo hi : Q) :
  lo < hi ->
  (LGS.clamp v lo hi = lo /\ v <= lo) \/
  (LGS.clamp v lo hi = hi /\ hi <= v) \/
  (LGS.clamp v lo hi = v /\ lo < v /\ v < hi).
Proof.
  intros Hlt. unfold LGS.clamp, Js.Math_max, Js.Math_min, Qmax, Qmin,
    GenericMinMax.gmax, GenericMinMax.gmin.
  destruct (hi ?= v) eqn:Hhv.
  - apply Qeq_alt in Hhv.
    assert (Hlo : (lo ?= hi) = Lt) by (apply Qlt_alt; exact Hlt).
    rewrite Hlo. right. left. split; [reflexivity | lra].
  - apply Qlt_alt in Hhv.
    assert (Hlo : (lo ?= hi) = Lt) by (apply Qlt_alt; exact Hlt).
    rewrite Hlo. right. left. split; [reflexivity | lra].
  - apply Qgt_alt in Hhv. destruct (lo ?= v) eqn:Hlv.
    + apply Qeq_alt in Hlv. left. split; [reflexivity | lra].
    + apply Qlt_alt in Hlv. right. right. split; [reflexivity | lra].
    + apply Qgt_alt in Hlv. left. split; [reflexivity | lra].
Qed.

Lemma clamp_idempotent (v lo hi : Q) :
  lo < hi -> LGS.clamp (LGS.clamp v lo hi) lo hi = LGS.clamp v lo hi.
Proof.
  intros Hlt.
  destruct (clamp_cases v lo hi Hlt) as [[-> _] | [[-> _] | [-> [Hl Hh]]]].
  - destruct (clamp_cases lo lo hi Hlt) as [[H _] | [[_ H] | [_ [H _]]]];
      [exact H | lra | lra].
  - destruct (clamp_cases hi lo hi Hlt) as [[_ H] | [[H _] | [_ [_ H]]]];
      [lra | exact H | lra].
  - destruct (clamp_cases v lo hi Hlt) as [[_ H] | [[_ H] | [H _]]];
      [lra | lra | exact H].
Qed.

Lemma clamp_in_range_equiv (v lo hi : Q) :
  lo < hi -> lo <= v -> v <= hi -> LGS.clamp v lo hi == v.
Proof.
  intros Hlt Hl Hh.
  destruct (clamp_cases v lo hi Hlt) as [[-> H] | [[-> H] | [-> _]]]; lra.
Qed.

Lemma clampLeafProperties_idem (p : LGS.LeafProperties) :
  LGS.clampLeafProperties (LGS.clampLeafProperties p) = LGS.clampLeafProperties p.
Proof.
  unfold LGS.clampLeafProperties. cbn [LGS.width LGS.length LGS.pointiness
    LGS.surface LGS.thickness].
  rewrite !clamp_idempotent by reflexivity. reflexivity.
Qed.

Lemma clampLeafProperties_in_range_equiv (p : LGS.LeafProperties) :
  LGS.in_range p -> LGS.leaf_equiv (LGS.clampLeafProperties p) p.
Proof.
  intros ((Hw0 & Hw1) & (Hl0 & Hl1) & (Hp0 & Hp1) & (Hs0 & Hs1) & (Ht0 & Ht1)).
  unfold LGS.leaf_equiv, LGS.clampLeafProperties. cbn [LGS.width LGS.length
    LGS.pointiness LGS.surface LGS.thickness].
  repeat split; apply clamp_in_range_equiv; (reflexivity || assumption).
Qed.

(** X7: clamping the leaf properties is idempotent, it leaves properties
    that are in range as they are (field by field), and the mesh built by
    [generateLeafGeometry] depends on the clamped properties only. *)
Theorem clampLeafProperties_idempotent :
  forall p : LGS.LeafProperties,
    LGS.clampLeafProperties (LGS.clampLeafProperties p)
    = LGS.clampLeafProperties p /\
    (LGS.in_range p -> LGS.leaf_equiv (LGS.clampLeafProperties p) p) /\
    (forall (BufferGeometry : Type)
            (buildGeometry : LGS.LeafProperties -> BufferGeometry),
        LGS.generateLeafGeometry BufferGeometry buildGeometry
          (LGS.clampLeafProperties p)
        = LGS.generateLeafGeometry BufferGeometry buildGeometry p).
Proof.
  intros p. split; [apply clampLeafProperties_idem |].
  split; [apply clampLeafProperties_in_range_equiv |].
  intros G build. unfold LGS.generateLeafGeometry. cbv zeta.
  rewrite clampLeafProperties_idem. reflexivity.
Qed.

Lemma conditions_lookup (k : string) :
  LGS.conditions !! k =
  if decide (k = "speed_boost"%string) then Some (LGS.mkLeaf 0.8 1.2 0.2 0.5 0.12)
  else if decide (k = "jump_boost"%string) then Some (LGS.mkLeaf 0.3 1.5 0.8 0.8 0.18)
  else if decide (k = "ice"%string) then Some (LGS.mkLeaf 0.4 0.8 0.6 0.9 0.15)
  else if decide (k = "slow"%string) then Some (LGS.mkLeaf 0.6 0.9 0.3 0.2 0.2)
  else if decide (k = "damage"%string) then Some (LGS.mkLeaf 0.2 0.6 0.9 1 0.08)
  else None.
Proof.
  unfold LGS.conditions.
  repeat (case_decide; [subst k; reflexivity |]).
  rewrite !lookup_insert_ne by congruence.
  apply lookup_singleton_ne. congruence.
Qed.

Lemma getLeafPropertiesFromZone_table (zoneType : string) :
  LGS.getLeafPropertiesFromZone zoneType
  = Js.or_object (LGS.conditions !! zoneType) LGS.fallbackProps.
Proof.
  unfold LGS.getLeafPropertiesFromZone. cbv zeta. rewrite conditions_lookup.
  repeat (case_decide; [reflexivity |]). reflexivity.
Qed.

(** X8: the clamp in [getLeafPropertiesFromZone] alters nothing on the
    table: for each of the five zone types the function returns the entry
    as authored; for a type string that is neither one of the five nor the
    name of a member of [Object.prototype] it returns the fallback literal,
    which is the [DEFAULT_LEAF] of the morph history; for the name of such a
    member the fallback is not taken and the width is [NaN]. *)
Theorem getLeafPropertiesFromZone_returns_table_entry :
  forall zoneType : string,
    (JsValue.inherited zoneType = false ->
     JLGS.getLeafPropertiesFromZone zoneType
     = JLGS.ofLeaf (Js.or_object (LGS.conditions !! zoneType) LGS.fallbackProps)) /\
    (LGS.conditions !! zoneType = None ->
     JsValue.inherited zoneType = false ->
     JLGS.getLeafPropertiesFromZone zoneType = JLMH.DEFAULT_LEAF) /\
    (LGS.conditions !! zoneType = None <->
     ~ In zoneType
         ["speed_boost"%string; "jump_boost"%string; "ice"%string;
          "slow"%string; "damage"%string]) /\
    (In zoneType
       ["speed_boost"%string; "jump_boost"%string; "ice"%string;
        "slow"%string; "damage"%string] ->
     JsValue.inherited zoneType = false) /\
    (JsValue.inherited zoneType = true ->
     JLGS.width (JLGS.getLeafPropertiesFromZone zoneType) = JsValue.NaN /\
     JLGS.getLeafPropertiesFromZone zoneType <> JLMH.DEFAULT_LEAF).
Proof.
  intros zoneType.
  assert (Htable : JsValue.inherited zoneType = false ->
                   JLGS.getLeafPropertiesFromZone zoneType
                   = JLGS.ofLeaf (Js.or_object (LGS.conditions !! zoneType)
                                    LGS.fallbackProps)).
  { intros Hkey. rewrite (getLeafPropertiesFromZone_ofLeaf _ Hkey),
      getLeafPropertiesFromZone_table. reflexivity. }
  split; [exact Htable |]. split; [| split; [| split]].
  - intros Hnone Hkey. rewrite (Htable Hkey), Hnone. reflexivity.
  - rewrite conditions_lookup. cbn [In].
    repeat (case_decide;
            [subst zoneType;
             split; [discriminate | intros Hn; exfalso; apply Hn; auto 7] |]).
    split; [| reflexivity].
    intros _ [Hn | [Hn | [Hn | [Hn | [Hn | []]]]]]; congruence.
  - cbn [In]. intros [<- | [<- | [<- | [<- | [<- | []]]]]]; reflexivity.
  - intros Hkey. rewrite (getLeafPropertiesFromZone_inherited _ Hkey).
    split; [reflexivity | discriminate].
Qed.

Lemma getLeafPropertiesFromZone_returns_table_entry_witness :
  JLGS.getLeafPropertiesFromZone "volcano" = JLMH.DEFAULT_LEAF.
Proof.
  apply (proj1 (proj2 (getLeafPropertiesFromZone_returns_table_entry
                         "volcano"%string))); reflexivity.
Defined.

Lemma smoothstep_unit (x : Q) :
  (x <= 0 /\ LGS.smoothstep x 0 1 = 0) \/
  (1 <= x /\ LGS.smoothstep x 0 1 = 1) \/
  (0 < x /\ x < 1 /\ LGS.smoothstep x 0 1 == x * x * (3 - 2 * x)).
Proof.
  unfold LGS.smoothstep.
  destruct (Qle_bool x 0) eqn:Hlo.
  - left. apply Qle_bool_iff in Hlo. split; [exact Hlo | reflexivity].
  - assert (H0 : 0 < x).
    { apply Qnot_le_lt. intros Hle. apply Qle_bool_iff in Hle. congruence. }
    destruct (Qle_bool 1 x) eqn:Hhi.
    + right. left. apply Qle_bool_iff in Hhi. split; [exact Hhi | reflexivity].
    + assert (H1 : x < 1).
      { apply Qnot_le_lt. intros Hle. apply Qle_bool_iff in Hle. congruence. }
      right. right. split; [exact H0 |]. split; [exact H1 |].
      cbv zeta. field.
Qed.

Lemma smoothstep_range (x : Q) :
  0 <= LGS.smoothstep x 0 1 /\ LGS.smoothstep x 0 1 <= 1.
Proof.
  destruct (smoothstep_unit x) as [[_ ->] | [[_ ->] | (H0 & H1 & ->)]].
  - split; discriminate.
  - split; discriminate.
  - assert (Hsq : 0 <= x * x) by nra.
    assert (Hsq' : 0 <= (1 - x) * (1 - x)) by nra.
    split.
    + apply Qmult_le_0_compat; [exact Hsq | lra].
    + assert (H : 0 <= (1 - x) * (1 - x) * (1 + 2 * x))
        by (apply Qmult_le_0_compat; [exact Hsq' | lra]).
      lra.
Qed.

Lemma smoothstep_monotone (x y : Q) :
  x <= y -> LGS.smoothstep x 0 1 <= LGS.smoothstep y 0 1.
Proof.
  intros Hxy. pose proof (smoothstep_range x) as [Hx0 Hx1].
  pose proof (smoothstep_range y) as [Hy0 Hy1].
  destruct (smoothstep_unit x) as [[Hx Ex] | [[Hx Ex] | (Hxa & Hxb & Ex)]];
    destruct (smoothstep_unit y) as [[Hy Ey] | [[Hy Ey] | (Hya & Hyb & Ey)]];
    try (rewrite Ex; exact Hy0); try (rewrite Ey; exact Hx1); try lra.
  rewrite Ex, Ey.
  assert (Hd : 0 <= (y - x) * (3 * (x + y) - 2 * (y * y + x * y + x * x))).
  { apply Qmult_le_0_compat; [lra |]. nra. }
  nra.
Qed.

Lemma clamp_monotone (u v lo hi : Q) :
  lo < hi -> u <= v -> LGS.clamp u lo hi <= LGS.clamp v lo hi.
Proof.
  intros Hlt Huv.
  destruct (clamp_cases u lo hi Hlt) as [[-> Hu] | [[-> Hu] | [-> [Hu1 Hu2]]]];
    destruct (clamp_cases v lo hi Hlt) as [[-> Hv] | [[-> Hv] | [-> [Hv1 Hv2]]]];
    lra.
Qed.

Lemma clamp_equiv (u v lo hi : Q) :
  lo < hi -> u == v -> LGS.clamp u lo hi == LGS.clamp v lo hi.
Proof.
  intros Hlt Huv. apply Qle_antisym; apply clamp_monotone; lra.
Qed.

Lemma lerp_between (a b e : Q) :
  0 <= e -> e <= 1 ->
  Qmin a b <= LGS.lerp a b e /\ LGS.lerp a b e <= Qmax a b.
Proof.
  intros He0 He1. unfold LGS.lerp.
  destruct (Qlt_le_dec a b) as [Hab | Hba].
  - rewrite (Q.min_l a b) by lra. rewrite (Q.max_r a b) by lra. split; nra.
  - rewrite (Q.min_r a b) by lra. rewrite (Q.max_l a b) by lra. split; nra.
Qed.

Lemma clamp_lerp_between (a b e lo hi : Q) :
  lo < hi -> lo <= a -> a <= hi -> lo <= b -> b <= hi ->
  0 <= e -> e <= 1 ->
  Qmin a b <= LGS.clamp (LGS.lerp a b e) lo hi /\
  LGS.clamp (LGS.lerp a b e) lo hi <= Qmax a b.
Proof.
  intros Hlt Ha0 Ha1 Hb0 Hb1 He0 He1.
  destruct (lerp_between a b e He0 He1) as [Hmin Hmax].
  assert (Hlo : lo <= Qmin a b) by (apply Q.min_glb; assumption).
  assert (Hhi : Qmax a b <= hi) by (apply Q.max_lub; assumption).
  rewrite (clamp_in_range_equiv (LGS.lerp a b e) lo hi Hlt) by lra.
  split; assumption.
Qed.

Lemma lerp_start (a b : Q) : LGS.lerp a b 0 == a.
Proof. unfold LGS.lerp. ring. Qed.

Lemma lerp_end (a b : Q) : LGS.lerp a b 1 == b.
Proof. unfold LGS.lerp. ring. Qed.

(** X9: the interpolator at its ends: for progress at or below 0 it returns
    the clamped source, for progress at or above 1 the clamped target, so
    for in-range source and target it returns them unchanged. *)
Theorem morphLeafProperties_endpoints :
  forall (fromProps toProps : LGS.LeafProperties) (progress : Q),
    (progress <= 0 ->
     LGS.leaf_equiv (LGS.morphLeafProperties fromProps toProps progress)
       (LGS.clampLeafProperties fromProps)) /\
    (1 <= progress ->
     LGS.leaf_equiv (LGS.morphLeafProperties fromProps toProps progress)
       (LGS.clampLeafProperties toProps)) /\
    (progress <= 0 -> LGS.in_range fromProps ->
     LGS.leaf_equiv (LGS.morphLeafProperties fromProps toProps progress)
       fromProps) /\
    (1 <= progress -> LGS.in_range toProps ->
     LGS.leaf_equiv (LGS.morphLeafProperties fromProps toProps progress)
       toProps).
Proof.
  intros fromProps toProps progress.
  assert (Hlow : progress <= 0 ->
                 LGS.leaf_equiv
                   (LGS.morphLeafProperties fromProps toProps progress)
                   (LGS.clampLeafProperties fromProps)).
  { intros Hp. unfold LGS.morphLeafProperties. cbv zeta.
    destruct (smoothstep_unit progress) as [[_ ->] | [[H _] | (H & _)]];
      [| lra | lra].
    unfold LGS.leaf_equiv, LGS.clampLeafProperties. cbn [LGS.width LGS.length
      LGS.pointiness LGS.surface LGS.thickness].
    repeat split; apply clamp_equiv; (reflexivity || apply lerp_start). }
  assert (Hhigh : 1 <= progress ->
                  LGS.leaf_equiv
                    (LGS.morphLeafProperties fromProps toProps progress)
                    (LGS.clampLeafProperties toProps)).
  { intros Hp. unfold LGS.morphLeafProperties. cbv zeta.
    destruct (smoothstep_unit progress) as [[H _] | [[_ ->] | (_ & H & _)]];
      [lra | | lra].
    unfold LGS.leaf_equiv, LGS.clampLeafProperties. cbn [LGS.width LGS.length
      LGS.pointiness LGS.surface LGS.thickness].
    repeat split; apply clamp_equiv; (reflexivity || apply lerp_end). }
  split; [exact Hlow |]. split; [exact Hhigh |]. split.
  - intros Hp Hr. specialize (Hlow Hp).
    pose proof (clampLeafProperties_in_range_equiv fromProps Hr) as Hc.
    unfold LGS.leaf_equiv in *.
    destruct Hlow as (-> & -> & -> & -> & ->). exact Hc.
  - intros Hp Hr. specialize (Hhigh Hp).
    pose proof (clampLeafProperties_in_range_equiv toProps Hr) as Hc.
    unfold LGS.leaf_equiv in *.
    destruct Hhigh as (-> & -> & -> & -> & ->). exact Hc.
Qed.

Lemma morphLeafProperties_endpoints_witness :
  LGS.leaf_equiv
    (LGS.morphLeafProperties (LGS.getLeafPropertiesFromZone "ice")
       (LGS.getLeafPropertiesFromZone "speed_boost") 1)
    (LGS.getLeafPropertiesFromZone "speed_boost").
Proof.
  apply (proj2 (proj2 (proj2 (morphLeafProperties_endpoints
                                (LGS.getLeafPropertiesFromZone "ice")
                                (LGS.getLeafPropertiesFromZone "speed_boost")
                                1)))).
  - discriminate.
  - apply getLeafPropertiesFromZone_in_range.
Defined.

(** X10: for in-range source and target, every field of the interpolated
    properties lies between the source field and the target field, at any
    progress. *)
Theorem morphLeafProperties_between :
  forall (fromProps toProps : LGS.LeafProperties) (progress : Q),
    LGS.in_range fromProps -> LGS.in_range toProps ->
    let m := LGS.morphLeafProperties fromProps toProps progress in
    (Qmin (LGS.width fromProps) (LGS.width toProps) <= LGS.width m /\
     LGS.width m <= Qmax (LGS.width fromProps) (LGS.width toProps)) /\
    (Qmin (LGS.length fromProps) (LGS.length toProps) <= LGS.length m /\
     LGS.length m <= Qmax (LGS.length fromProps) (LGS.length toProps)) /\
    (Qmin (LGS.pointiness fromProps) (LGS.pointiness toProps)
       <= LGS.pointiness m /\
     LGS.pointiness m
       <= Qmax (LGS.pointiness fromProps) (LGS.pointiness toProps)) /\
    (Qmin (LGS.surface fromProps) (LGS.surface toProps) <= LGS.surface m /\
     LGS.surface m <= Qmax (LGS.surface fromProps) (LGS.surface toProps)) /\
    (Qmin (LGS.thickness fromProps) (LGS.thickness toProps)
       <= LGS.thickness m /\
     LGS.thickness m
       <= Qmax (LGS.thickness fromProps) (LGS.thickness toProps)).
Proof.
  intros fromProps toProps progress Hf Ht m. subst m.
  destruct Hf as ((Hfw0 & Hfw1) & (Hfl0 & Hfl1) & (Hfp0 & Hfp1)
                  & (Hfs0 & Hfs1) & (Hft0 & Hft1)).
  destruct Ht as ((Htw0 & Htw1) & (Htl0 & Htl1) & (Htp0 & Htp1)
                  & (Hts0 & Hts1) & (Htt0 & Htt1)).
  destruct (smoothstep_range progress) as [He0 He1].
  unfold LGS.morphLeafProperties, LGS.clampLeafProperties. cbv zeta.
  cbn [LGS.width LGS.length LGS.pointiness LGS.surface LGS.thickness].
  repeat split;
    apply clamp_lerp_between; (reflexivity || assumption).
Qed.

Lemma morphLeafProperties_between_witness :
  LGS.width (LGS.getLeafPropertiesFromZone "ice")
  <= LGS.width
       (LGS.morphLeafProperties (LGS.getLeafPropertiesFromZone "ice")
          (LGS.getLeafPropertiesFromZone "speed_boost") 0.5) /\
  LGS.width
    (LGS.morphLeafProperties (LGS.getLeafPropertiesFromZone "ice")
       (LGS.getLeafPropertiesFromZone "speed_boost") 0.5)
  <= LGS.width (LGS.getLeafPropertiesFromZone "speed_boost").
Proof.
  apply (proj1 (morphLeafProperties_between
                  (LGS.getLeafPropertiesFromZone "ice")
                  (LGS.getLeafPropertiesFromZone "speed_boost") 0.5
                  (getLeafPropertiesFromZone_in_range "ice")
                  (getLeafPropertiesFromZone_in_range "speed_boost"))).
Defined.

(** X11: the interpolator moves every field monotonically from the source
    towards the target as progress grows: a field whose source is at most
    its target never decreases, one whose source is at least its target
    never increases. *)
Theorem morphLeafProperties_monotone :
  forall (fromProps toProps : LGS.LeafProperties) (p q : Q),
    p <= q ->
    let mp := LGS.morphLeafProperties fromProps toProps p in
    let mq := LGS.morphLeafProperties fromProps toProps q in
    (LGS.width fromProps <= LGS.width toProps -> LGS.width mp <= LGS.width mq) /\
    (LGS.width toProps <= LGS.width fromProps -> LGS.width mq <= LGS.width mp) /\
    (LGS.length fromProps <= LGS.length toProps ->
     LGS.length mp <= LGS.length mq) /\
    (LGS.length toProps <= LGS.length fromProps ->
     LGS.length mq <= LGS.length mp) /\
    (LGS.pointiness fromProps <= LGS.pointiness toProps ->
     LGS.pointiness mp <= LGS.pointiness mq) /\
    (LGS.pointiness toProps <= LGS.pointiness fromProps ->
     LGS.pointiness mq <= LGS.pointiness mp) /\
    (LGS.surface fromProps <= LGS.surface toProps ->
     LGS.surface mp <= LGS.surface mq) /\
    (LGS.surface toProps <= LGS.surface fromProps ->
     LGS.surface mq <= LGS.surface mp) /\
    (LGS.thickness fromProps <= LGS.thickness toProps ->
     LGS.thickness mp <= LGS.thickness mq) /\
    (LGS.thickness toProps <= LGS.thickness fromProps ->
     LGS.thickness mq <= LGS.thickness mp).
Proof.
  intros fromProps toProps p q Hpq mp mq. subst mp mq.
  pose proof (smoothstep_monotone p q Hpq) as He.
  unfold LGS.morphLeafProperties, LGS.clampLeafProperties. cbv zeta.
  cbn [LGS.width LGS.length LGS.pointiness LGS.surface LGS.thickness].
  repeat split; intros Hdir; apply clamp_monotone;
    try reflexivity; unfold LGS.lerp; nra.
Qed.

Lemma morphLeafProperties_monotone_witness :
  LGS.width
    (LGS.morphLeafProperties (LGS.getLeafPropertiesFromZone "ice")
       (LGS.getLeafPropertiesFromZone "speed_boost") 0.25)
  <= LGS.width
       (LGS.morphLeafProperties (LGS.getLeafPropertiesFromZone "ice")
          (LGS.getLeafPropertiesFromZone "speed_boost") 0.75).
Proof.
  apply (proj1 (morphLeafProperties_monotone
                  (LGS.getLeafPropertiesFromZone "ice")
                  (LGS.getLeafPropertiesFromZone "speed_boost") 0.25 0.75
                  ltac:(discriminate))).
  discriminate.
Defined.

(** ** The morph history *)

Lemma blend_spec_in_range (a b : LGS.LeafProperties) :
  LGS.in_range (LMH.blend_spec a b).
Proof. rewrite <- blendLeafProperties_half. apply blendLeafProperties_in_range. Qed.

Lemma DEFAULT_LEAF_in_range : LGS.in_range LMH.DEFAULT_LEAF.
Proof. unfold LGS.in_range. cbn. repeat split; discriminate. Qed.

(** X12: recording a zone morph is an upsert: the id then reads back the
    recorded properties, other ids read as before, the stored current morph
    is untouched, a later record for the same id replaces the earlier one,
    and the accumulated morph of that id alone is the blend of
    [DEFAULT_LEAF] with the recorded properties. *)
Theorem recordZoneMorph_upsert :
  forall (zoneId : string) (props : LGS.LeafProperties) (st : LMH.HistoryState),
    LMH.morphHistory (LMH.recordZoneMorph zoneId props st) !! zoneId
      = Some props /\
    (forall other,
        other <> zoneId ->
        LMH.morphHistory (LMH.recordZoneMorph zoneId props st) !! other
        = LMH.morphHistory st !! other) /\
    LMH.currentMorph (LMH.recordZoneMorph zoneId props st) = LMH.currentMorph st /\
    (forall earlier,
        LMH.recordZoneMorph zoneId props
          (LMH.recordZoneMorph zoneId earlier st)
        = LMH.recordZoneMorph zoneId props st) /\
    fst (LMH.getAccumulatedMorph [zoneId] (LMH.recordZoneMorph zoneId props st))
      = LMH.blendLeafProperties LMH.DEFAULT_LEAF props 0.5.
Proof.
  intros zoneId props st. unfold LMH.recordZoneMorph.
  cbn [LMH.morphHistory LMH.currentMorph]. split; [apply lookup_insert_eq |].
  split; [intros other Hne; apply lookup_insert_ne; congruence |].
  split; [reflexivity |]. split.
  - intros earlier. rewrite insert_insert_eq. reflexivity.
  - cbn [LMH.getAccumulatedMorph List.length Nat.eqb fst List.fold_left
      LMH.morphHistory].
    unfold LMH.accumulateStep. rewrite lookup_insert_eq. reflexivity.
Qed.

Lemma blend_values_in_range (acc recorded : JLGS.LeafProperties) :
  JLGS.finite acc -> JLGS.finite recorded ->
  JLGS.in_range
    (JLMH.blendLeafProperties acc (JsValue.Literal recorded) (JsValue.Num 0.5)).
Proof.
  intros [a ->] [b ->]. rewrite blendLeafProperties_ofLeaf.
  apply in_range_ofLeaf, blendLeafProperties_in_range.
Qed.

Lemma DEFAULT_LEAF_values_in_range : JLGS.in_range JLMH.DEFAULT_LEAF.
Proof. apply in_range_ofLeaf, DEFAULT_LEAF_in_range. Qed.

Lemma accumulate_loop_values_in_range (h : gmap string JLGS.LeafProperties)
    (zoneIds : list string) :
  map_Forall (fun _ p => JLGS.finite p) h ->
  Forall (JLMH.plain h) zoneIds ->
  forall acc,
    JLGS.in_range acc ->
    JLGS.in_range (List.fold_left (JLMH.accumulateStep h) zoneIds acc).
Proof.
  intros Hfin. induction 1 as [| zoneId rest Hid _ IH]; intros acc Hacc;
    [exact Hacc |].
  cbn [List.fold_left]. apply IH. unfold JLMH.accumulateStep.
  destruct (h !! zoneId) as [p |] eqn:Hp.
  - rewrite (get_own _ _ _ Hp). apply blend_values_in_range.
    + apply in_range_finite. exact Hacc.
    + apply (Hfin zoneId p Hp).
  - destruct Hid as [[p Hsome] | Hkey]; [congruence |].
    rewrite (get_unknown _ _ Hp Hkey). exact Hacc.
Qed.

Lemma getAccumulatedMorph_values_in_range (zoneIds : list string)
    (st : JLMH.HistoryState) :
  map_Forall (fun _ p => JLGS.finite p) (JLMH.morphHistory st) ->
  Forall (JLMH.plain (JLMH.morphHistory st)) zoneIds ->
  zoneIds <> [] \/ JLGS.in_range (JLMH.currentMorph st) ->
  JLGS.in_range (fst (JLMH.getAccumulatedMorph zoneIds st)) /\
  JLGS.in_range (JLMH.currentMorph (snd (JLMH.getAccumulatedMorph zoneIds st))).
Proof.
  intros Hfin Hplain Hcur. destruct zoneIds as [| zoneId rest].
  - destruct Hcur as [Hne | Hcur]; [contradiction |]. cbn. split; exact Hcur.
  - rewrite getAccumulatedMorph_values_nonempty by discriminate.
    cbn [fst snd JLMH.currentMorph].
    split; apply accumulate_loop_values_in_range;
      auto using DEFAULT_LEAF_values_in_range.
Qed.

Lemma historyReachable_invariant (st : JLMH.HistoryState) :
  Runs.historyReachable st ->
  map_Forall (fun _ p => JLGS.finite p) (JLMH.morphHistory st) /\
  JLGS.in_range (JLMH.currentMorph st).
Proof.
  induction 1 as [| st st' _ [Hfin Hcur] Hstep].
  - split; [apply map_Forall_empty | apply DEFAULT_LEAF_values_in_range].
  - destruct Hstep as [zoneId props st | zoneIds st Hplain | st].
    + split; [| exact Hcur]. cbn [JLMH.recordZoneMorph JLMH.morphHistory].
      apply map_Forall_insert_2; [exists props; reflexivity | exact Hfin].
    + split.
      * destruct zoneIds; exact Hfin.
      * apply getAccumulatedMorph_values_in_range; auto.
    + split; [apply map_Forall_empty | apply DEFAULT_LEAF_values_in_range].
Qed.

(** X13: whatever rational properties have been recorded, also far out of
    range, the accumulated morph of a non-empty list of ids that are
    recorded or not inherited names has every field a number inside its
    range, and that value is stored; in every state the provider reaches by
    such records, such accumulations and resets the stored current morph is
    in range.  An unrecorded inherited name breaks it: on the initial state
    [getAccumulatedMorph(['constructor'])] has width [NaN] and stores it. *)
Theorem accumulated_morph_always_in_range :
  (forall (zoneIds : list string) (st : JLMH.HistoryState),
      zoneIds <> [] ->
      map_Forall (fun _ p => JLGS.finite p) (JLMH.morphHistory st) ->
      Forall (JLMH.plain (JLMH.morphHistory st)) zoneIds ->
      JLGS.in_range (fst (JLMH.getAccumulatedMorph zoneIds st)) /\
      JLMH.getCurrentMorph (snd (JLMH.getAccumulatedMorph zoneIds st))
        = fst (JLMH.getAccumulatedMorph zoneIds st)) /\
  (forall st : JLMH.HistoryState,
      Runs.historyReachable st ->
      JLGS.in_range (JLMH.getCurrentMorph st) /\
      forall zoneIds,
        Forall (JLMH.plain (JLMH.morphHistory st)) zoneIds ->
        JLGS.in_range (fst (JLMH.getAccumulatedMorph zoneIds st))) /\
  JLGS.width
    (fst (JLMH.getAccumulatedMorph ["constructor"%string] JLMH.initialHistory))
    = JsValue.NaN /\
  JLGS.width
    (JLMH.getCurrentMorph
       (snd (JLMH.getAccumulatedMorph ["constructor"%string]
               JLMH.initialHistory)))
    = JsValue.NaN.
Proof.
  split; [| split; [| split; vm_compute; reflexivity]].
  - intros zoneIds st Hne Hfin Hplain. split.
    + apply getAccumulatedMorph_values_in_range; auto.
    + rewrite getAccumulatedMorph_values_nonempty by exact Hne. reflexivity.
  - intros st Hreach.
    destruct (historyReachable_invariant st Hreach) as [Hfin Hcur].
    split; [exact Hcur |].
    intros zoneIds Hplain.
    apply getAccumulatedMorph_values_in_range; auto.
Qed.

Lemma accumulated_morph_always_in_range_witness :
  JLGS.in_range
    (fst (JLMH.getAccumulatedMorph ["wild"%string; "volcano"%string]
            JLMH.visited_wild)).
Proof.
  refine (proj1 (proj1 accumulated_morph_always_in_range
                   ["wild"%string; "volcano"%string] JLMH.visited_wild
                   _ _ _)).
  - discriminate.
  - apply map_Forall_insert_2; [| apply map_Forall_empty].
    exists (LGS.mkLeaf 7 (-3) 2 9 4). reflexivity.
  - constructor; [left; eexists; reflexivity |].
    constructor; [right; reflexivity | constructor].
Defined.

(** X14: [resetHistory] forgets everything: it gives the initial state back,
    no id has a record, and the accumulated morph of any list of ids none of
    which is an inherited name, the empty list included, is
    [DEFAULT_LEAF]; for the list ['constructor'] the width is [NaN]. *)
Theorem resetHistory_forgets :
  forall (st : JLMH.HistoryState) (zoneIds : list string),
    JLMH.resetHistory st = JLMH.initialHistory /\
    (forall zoneId, JLMH.morphHistory (JLMH.resetHistory st) !! zoneId = None) /\
    (Forall (fun i => JsValue.inherited i = false) zoneIds ->
     fst (JLMH.getAccumulatedMorph zoneIds (JLMH.resetHistory st))
     = JLMH.DEFAULT_LEAF) /\
    JLGS.width
      (fst (JLMH.getAccumulatedMorph ["constructor"%string]
              (JLMH.resetHistory st)))
    = JsValue.NaN.
Proof.
  intros st zoneIds. split; [reflexivity |].
  split; [intros; apply lookup_empty |].
  split; [| vm_compute; reflexivity].
  intros Hkeys. destruct zoneIds as [| zoneId rest]; [reflexivity |].
  rewrite getAccumulatedMorph_values_nonempty by discriminate. cbn [fst].
  rewrite accumulate_loop_get, omap_all_none; [reflexivity |].
  eapply List.Forall_impl; [| exact Hkeys].
  intros i Hi. apply get_unknown; [apply lookup_empty | exact Hi].
Qed.

Lemma midpoints_equiv (values : list Q) :
  forall a b, a == b -> Runs.midpoints a values == Runs.midpoints b values.
Proof.
  unfold Runs.midpoints.
  induction values as [| v rest IH]; intros a b Hab; [exact Hab |].
  cbn [List.fold_left]. apply IH. rewrite Hab. reflexivity.
Qed.

Lemma midpoints_app (values more : list Q) (start : Q) :
  Runs.midpoints start (values ++ more)
  = Runs.midpoints (Runs.midpoints start values) more.
Proof. unfold Runs.midpoints. apply List.fold_left_app. Qed.

Lemma midpoints_between (values : list Q) (lo hi : Q) :
  forall start,
    lo <= start -> start <= hi ->
    Forall (fun v => lo <= v /\ v <= hi) values ->
    lo <= Runs.midpoints start values /\ Runs.midpoints start values <= hi.
Proof.
  unfold Runs.midpoints.
  induction values as [| v rest IH]; intros start Hl Hh Hall; [split; assumption |].
  inversion Hall as [| ? ? [Hv0 Hv1] Hrest]; subst.
  cbn [List.fold_left]. apply IH; [lra | lra | exact Hrest].
Qed.

(** One blend of two in-range property sets is the plain midpoint in every
    field: the clamp has nothing to cut. *)
Lemma blend_spec_midpoint (a b : LGS.LeafProperties) :
  LGS.in_range a -> LGS.in_range b ->
  LGS.width (LMH.blend_spec a b) == LGS.width a * 0.5 + LGS.width b * 0.5 /\
  LGS.length (LMH.blend_spec a b) == LGS.length a * 0.5 + LGS.length b * 0.5 /\
  LGS.pointiness (LMH.blend_spec a b)
    == LGS.pointiness a * 0.5 + LGS.pointiness b * 0.5 /\
  LGS.surface (LMH.blend_spec a b)
    == LGS.surface a * 0.5 + LGS.surface b * 0.5 /\
  LGS.thickness (LMH.blend_spec a b)
    == LGS.thickness a * 0.5 + LGS.thickness b * 0.5.
Proof.
  intros ((Haw0 & Haw1) & (Hal0 & Hal1) & (Hap0 & Hap1) & (Has0 & Has1)
          & (Hat0 & Hat1))
         ((Hbw0 & Hbw1) & (Hbl0 & Hbl1) & (Hbp0 & Hbp1) & (Hbs0 & Hbs1)
          & (Hbt0 & Hbt1)).
  unfold LMH.blend_spec. cbn [LGS.width LGS.length LGS.pointiness LGS.surface
    LGS.thickness].
  repeat split;
    apply (clamp_in_range_equiv _ _ _); try reflexivity; lra.
Qed.

Lemma accumulate_midpoints (recorded : list LGS.LeafProperties) :
  forall acc,
    LGS.in_range acc -> Forall LGS.in_range recorded ->
    let r := List.fold_left LMH.blend_spec recorded acc in
    LGS.width r == Runs.midpoints (LGS.width acc) (List.map LGS.width recorded) /\
    LGS.length r
      == Runs.midpoints (LGS.length acc) (List.map LGS.length recorded) /\
    LGS.pointiness r
      == Runs.midpoints (LGS.pointiness acc)
           (List.map LGS.pointiness recorded) /\
    LGS.surface r
      == Runs.midpoints (LGS.surface acc) (List.map LGS.surface recorded) /\
    LGS.thickness r
      == Runs.midpoints (LGS.thickness acc) (List.map LGS.thickness recorded).
Proof.
  induction recorded as [| p rest IH]; intros acc Hacc Hall r; subst r.
  - cbn. repeat split; reflexivity.
  - inversion Hall as [| ? ? Hp Hrest]; subst.
    cbn [List.fold_left List.map].
    destruct (IH (LMH.blend_spec acc p) (blend_spec_in_range acc p) Hrest)
      as (Hw & Hl & Hq & Hs & Ht).
    destruct (blend_spec_midpoint acc p Hacc Hp) as (Ew & El & Eq & Es & Et).
    unfold Runs.midpoints in *. cbn [List.fold_left].
    repeat split.
    + rewrite Hw. apply midpoints_equiv. exact Ew.
    + rewrite Hl. apply midpoints_equiv. exact El.
    + rewrite Hq. apply midpoints_equiv. exact Eq.
    + rewrite Hs. apply midpoints_equiv. exact Es.
    + rewrite Ht. apply midpoints_equiv. exact Et.
Qed.

Lemma getAccumulatedMorph_midpoints (st : LMH.HistoryState)
    (zoneIds : list string) (recorded : list LGS.LeafProperties) :
  zoneIds <> [] ->
  Forall2 (fun zoneId p => LMH.morphHistory st !! zoneId = Some p)
    zoneIds recorded ->
  Forall LGS.in_range recorded ->
  let r := fst (LMH.getAccumulatedMorph zoneIds st) in
  LGS.width r == Runs.midpoints 0.5 (List.map LGS.width recorded) /\
  LGS.length r == Runs.midpoints 1 (List.map LGS.length recorded) /\
  LGS.pointiness r == Runs.midpoints 0.5 (List.map LGS.pointiness recorded) /\
  LGS.surface r == Runs.midpoints 0.3 (List.map LGS.surface recorded) /\
  LGS.thickness r == Runs.midpoints 0.1 (List.map LGS.thickness recorded).
Proof.
  intros Hne Hall Hrange r. subst r.
  rewrite (getAccumulatedMorph_nonempty zoneIds st Hne). cbn [fst].
  rewrite accumulate_loop_omap, (omap_all_recorded _ _ _ Hall).
  apply (accumulate_midpoints recorded LMH.DEFAULT_LEAF
           DEFAULT_LEAF_in_range Hrange).
Qed.

(** X15: when every listed id has a recorded entry and the entries are in
    range, the clamp never cuts: each field of the accumulated morph is the
    repeated midpoint, starting from the field of [DEFAULT_LEAF] and
    halving towards each recorded value in visitation order. *)
Theorem accumulated_morph_is_repeated_midpoint :
  forall (st : LMH.HistoryState) (zoneIds : list string)
         (recorded : list LGS.LeafProperties),
    zoneIds <> [] ->
    Forall2 (fun zoneId p => LMH.morphHistory st !! zoneId = Some p)
      zoneIds recorded ->
    Forall LGS.in_range recorded ->
    let r := fst (LMH.getAccumulatedMorph zoneIds st) in
    LGS.width r == Runs.midpoints 0.5 (List.map LGS.width recorded) /\
    LGS.length r == Runs.midpoints 1 (List.map LGS.length recorded) /\
    LGS.pointiness r == Runs.midpoints 0.5 (List.map LGS.pointiness recorded) /\
    LGS.surface r == Runs.midpoints 0.3 (List.map LGS.surface recorded) /\
    LGS.thickness r == Runs.midpoints 0.1 (List.map LGS.thickness recorded).
Proof. exact getAccumulatedMorph_midpoints. Qed.

Lemma accumulated_morph_is_repeated_midpoint_witness :
  LGS.width
    (fst (LMH.getAccumulatedMorph
            ["speed_boost"%string; "jump_boost"%string] LMH.visited_speed_jump))
  == Runs.midpoints 0.5
       (List.map LGS.width
          [LGS.getLeafPropertiesFromZone "speed_boost";
           LGS.getLeafPropertiesFromZone "jump_boost"]).
Proof.
  refine (proj1 (accumulated_morph_is_repeated_midpoint LMH.visited_speed_jump
                   ["speed_boost"%string; "jump_boost"%string]
                   [LGS.getLeafPropertiesFromZone "speed_boost";
                    LGS.getLeafPropertiesFromZone "jump_boost"] _ _ _)).
  - discriminate.
  - repeat constructor.
  - constructor; [apply getLeafPropertiesFromZone_in_range |].
    constructor; [apply getLeafPropertiesFromZone_in_range | constructor].
Defined.

(** X16: the accumulation depends on the visiting order: with in-range
    entries, swapping the last two visited zones leaves the accumulated
    width the same exactly when the two recorded widths are equal. *)
Theorem accumulated_morph_order_matters :
  forall (st : LMH.HistoryState) (before : list string)
         (recorded : list LGS.LeafProperties) (a b : string)
         (pa pb : LGS.LeafProperties),
    Forall2 (fun zoneId p => LMH.morphHistory st !! zoneId = Some p)
      before recorded ->
    LMH.morphHistory st !! a = Some pa ->
    LMH.morphHistory st !! b = Some pb ->
    Forall LGS.in_range recorded -> LGS.in_range pa -> LGS.in_range pb ->
    (LGS.width (fst (LMH.getAccumulatedMorph (before ++ [a; b]) st))
     == LGS.width (fst (LMH.getAccumulatedMorph (before ++ [b; a]) st))
     <-> LGS.width pa == LGS.width pb).
Proof.
  intros st before recorded a b pa pb Hall Ha Hb Hrange Hpa Hpb.
  assert (Hab : Forall2 (fun zoneId p => LMH.morphHistory st !! zoneId = Some p)
                  (before ++ [a; b]) (recorded ++ [pa; pb])).
  { apply Forall2_app; [exact Hall | repeat constructor; assumption]. }
  assert (Hba : Forall2 (fun zoneId p => LMH.morphHistory st !! zoneId = Some p)
                  (before ++ [b; a]) (recorded ++ [pb; pa])).
  { apply Forall2_app; [exact Hall | repeat constructor; assumption]. }
  assert (Hrab : Forall LGS.in_range (recorded ++ [pa; pb])).
  { apply Forall_app. split; [exact Hrange |].
    constructor; [assumption | constructor; [assumption | constructor]]. }
  assert (Hrba : Forall LGS.in_range (recorded ++ [pb; pa])).
  { apply Forall_app. split; [exact Hrange |].
    constructor; [assumption | constructor; [assumption | constructor]]. }
  assert (Nab : before ++ [a; b] <> []) by (destruct before; discriminate).
  assert (Nba : before ++ [b; a] <> []) by (destruct before; discriminate).
  destruct (getAccumulatedMorph_midpoints st _ _ Nab Hab Hrab) as [Eab _].
  destruct (getAccumulatedMorph_midpoints st _ _ Nba Hba Hrba) as [Eba _].
  rewrite Eab, Eba, !List.map_app, !midpoints_app.
  set (m := Runs.midpoints 0.5 (List.map LGS.width recorded)).
  unfold Runs.midpoints. cbn [List.map List.fold_left].
  split; intros H; lra.
Qed.

Lemma accumulated_morph_order_matters_witness :
  ~ LGS.width
      (fst (LMH.getAccumulatedMorph
              ["speed_boost"%string; "jump_boost"%string]
              LMH.visited_speed_jump))
    == LGS.width
         (fst (LMH.getAccumulatedMorph
                 ["jump_boost"%string; "speed_boost"%string]
                 LMH.visited_speed_jump)).
Proof.
  intros Heq.
  refine (_ (proj1 (accumulated_morph_order_matters LMH.visited_speed_jump
                      [] [] "speed_boost"%string "jump_boost"%string
                      (LGS.getLeafPropertiesFromZone "speed_boost")
                      (LGS.getLeafPropertiesFromZone "jump_boost")
                      _ _ _ _ _ _) Heq)).
  - discriminate.
  - constructor.
  - reflexivity.
  - reflexivity.
  - constructor.
  - apply getLeafPropertiesFromZone_in_range.
  - apply getLeafPropertiesFromZone_in_range.
Defined.

(** ** The history tracker of the mini visualizer *)

Lemma differs_false (prev : option string) (zoneId : string) :
  ZMV.differs prev zoneId = false <-> prev = Some zoneId.
Proof.
  unfold ZMV.differs. destruct prev as [s |].
  - rewrite negb_false_iff, String.eqb_eq. split; [intros ->; reflexivity |].
    intros [= ->]. reflexivity.
  - split; discriminate.
Qed.

(** The ids of the zones that were dominant in some render. *)
Lemma trackAll_visited (dominants : list (option IZC.InfluenceZone)) :
  forall t : ZMV.Tracker,
    (forall s, ZMV.prevDominantZoneRef t = Some s -> s ∈ ZMV.visitedZonesRef t) ->
    (forall s, ZMV.prevDominantZoneRef (ZMV.trackAll dominants t) = Some s ->
               s ∈ ZMV.visitedZonesRef (ZMV.trackAll dominants t)) /\
    ZMV.visitedZonesRef (ZMV.trackAll dominants t)
    = ZMV.visitedZonesRef t
      ∪ list_to_set (IZC.id <$> omap (fun d => d) dominants).
Proof.
  induction dominants as [| d rest IH]; intros t Hprev.
  - cbn. split; [exact Hprev | set_solver].
  - cbn [ZMV.trackAll List.fold_left].
    change (List.fold_left (fun acc d0 => ZMV.trackDominantZone d0 acc) rest
              (ZMV.trackDominantZone d t))
      with (ZMV.trackAll rest (ZMV.trackDominantZone d t)).
    destruct d as [zone |]; cbn [ZMV.trackDominantZone omap list_omap].
    + destruct (ZMV.differs (ZMV.prevDominantZoneRef t) (IZC.id zone)) eqn:Hd.
      * destruct (IH {| ZMV.prevDominantZoneRef := Some (IZC.id zone);
                        ZMV.visitedZonesRef :=
                          {[ IZC.id zone ]} ∪ ZMV.visitedZonesRef t;
                        ZMV.history :=
                          LMH.recordZoneMorph (IZC.id zone)
                            (LGS.getLeafPropertiesFromZone (IZC.type zone))
                            (ZMV.history t) |}) as [Hp Hv].
        { cbn. intros s [= <-]. set_solver. }
        split; [exact Hp |]. rewrite Hv. cbn. set_solver.
      * apply differs_false in Hd.
        destruct (IH t Hprev) as [Hp Hv].
        split; [exact Hp |]. rewrite Hv. cbn.
        specialize (Hprev _ Hd). set_solver.
    + apply IH. exact Hprev.
Qed.

(** The keys of the history are the visited ids, and every entry is the
    mapped property set of a zone type, hence in range. *)
Lemma trackAll_history (dominants : list (option IZC.InfluenceZone)) :
  forall t : ZMV.Tracker,
    dom (LMH.morphHistory (ZMV.history t)) = ZMV.visitedZonesRef t ->
    (forall k p, LMH.morphHistory (ZMV.history t) !! k = Some p ->
                 exists zoneType, p = LGS.getLeafPropertiesFromZone zoneType) ->
    dom (LMH.morphHistory (ZMV.history (ZMV.trackAll dominants t)))
    = ZMV.visitedZonesRef (ZMV.trackAll dominants t) /\
    (forall k p,
        LMH.morphHistory (ZMV.history (ZMV.trackAll dominants t)) !! k = Some p ->
        exists zoneType, p = LGS.getLeafPropertiesFromZone zoneType) /\
    LMH.currentMorph (ZMV.history (ZMV.trackAll dominants t))
    = LMH.currentMorph (ZMV.history t).
Proof.
  induction dominants as [| d rest IH]; intros t Hdom Hent.
  - cbn. split; [exact Hdom |]. split; [exact Hent | reflexivity].
  - cbn [ZMV.trackAll List.fold_left].
    change (List.fold_left (fun acc d0 => ZMV.trackDominantZone d0 acc) rest
              (ZMV.trackDominantZone d t))
      with (ZMV.trackAll rest (ZMV.trackDominantZone d t)).
    destruct d as [zone |]; cbn [ZMV.trackDominantZone]; [| apply IH; assumption].
    destruct (ZMV.differs (ZMV.prevDominantZoneRef t) (IZC.id zone));
      [| apply IH; assumption].
    destruct (IH {| ZMV.prevDominantZoneRef := Some (IZC.id zone);
                    ZMV.visitedZonesRef :=
                      {[ IZC.id zone ]} ∪ ZMV.visitedZonesRef t;
                    ZMV.history :=
                      LMH.recordZoneMorph (IZC.id zone)
                        (LGS.getLeafPropertiesFromZone (IZC.type zone))
                        (ZMV.history t) |}) as (Hd & He & Hc).
    + cbn. rewrite dom_insert_L, Hdom. reflexivity.
    + cbn. intros k p Hk. apply lookup_insert_Some in Hk as [[_ <-] | [_ Hk]].
      * exists (IZC.type zone). reflexivity.
      * apply (Hent k p Hk).
    + split; [exact Hd |]. split; [exact He | exact Hc].
Qed.

(** X17: after any sequence of renders the tracker's visited set is exactly
    the set of ids of the zones that were dominant, the history has an entry
    for exactly those ids, every entry is the mapped property set of a zone
    type and so in range, and the stored current morph is still
    [DEFAULT_LEAF]. *)
Theorem tracker_records_visited_zones :
  forall dominants : list (option IZC.InfluenceZone),
    let t := ZMV.trackAll dominants ZMV.initialTracker in
    ZMV.visitedZonesRef t = list_to_set (IZC.id <$> omap (fun d => d) dominants) /\
    dom (LMH.morphHistory (ZMV.history t)) = ZMV.visitedZonesRef t /\
    (forall k p,
        LMH.morphHistory (ZMV.history t) !! k = Some p ->
        (exists zoneType, p = LGS.getLeafPropertiesFromZone zoneType) /\
        LGS.in_range p) /\
    LMH.currentMorph (ZMV.history t) = LMH.DEFAULT_LEAF.
Proof.
  intros dominants t. subst t.
  destruct (trackAll_visited dominants ZMV.initialTracker) as [_ Hv];
    [cbn; discriminate |].
  destruct (trackAll_history dominants ZMV.initialTracker) as (Hd & He & Hc).
  { cbn. apply dom_empty_L. }
  { cbn. intros k p Hk. rewrite lookup_empty in Hk. discriminate. }
  split; [rewrite Hv; cbn; set_solver |]. split; [exact Hd |].
  split; [| exact Hc].
  intros k p Hk. destruct (He k p Hk) as [zoneType ->].
  split; [exists zoneType; reflexivity | apply getLeafPropertiesFromZone_in_range].
Qed.

(** X18: the tracker is edge-triggered on the zone id: a render without a
    dominant zone changes nothing and does not forget the previous id, a
    render with the same dominant id as the previous one changes nothing, so
    leaving a zone and re-entering it records nothing new; a different id is
    recorded under that id with the mapped properties of the zone's type. *)
Theorem tracker_is_edge_triggered :
  forall (zone : IZC.InfluenceZone) (t : ZMV.Tracker),
    ZMV.trackDominantZone None t = t /\
    ZMV.trackDominantZone (Some zone) (ZMV.trackDominantZone (Some zone) t)
      = ZMV.trackDominantZone (Some zone) t /\
    ZMV.trackDominantZone (Some zone)
      (ZMV.trackDominantZone None (ZMV.trackDominantZone (Some zone) t))
      = ZMV.trackDominantZone (Some zone) t /\
    (ZMV.prevDominantZoneRef t <> Some (IZC.id zone) ->
     LMH.morphHistory (ZMV.history (ZMV.trackDominantZone (Some zone) t))
       !! IZC.id zone
     = Some (LGS.getLeafPropertiesFromZone (IZC.type zone)) /\
     ZMV.prevDominantZoneRef (ZMV.trackDominantZone (Some zone) t)
     = Some (IZC.id zone)).
Proof.
  intros zone t.
  assert (Hidem : ZMV.trackDominantZone (Some zone)
                    (ZMV.trackDominantZone (Some zone) t)
                  = ZMV.trackDominantZone (Some zone) t).
  { cbn [ZMV.trackDominantZone].
    destruct (ZMV.differs (ZMV.prevDominantZoneRef t) (IZC.id zone)) eqn:Hd.
    - cbn [ZMV.prevDominantZoneRef ZMV.differs]. rewrite String.eqb_refl.
      reflexivity.
    - rewrite Hd. reflexivity. }
  split; [reflexivity |]. split; [exact Hidem |]. split; [exact Hidem |].
  intros Hne. cbn [ZMV.trackDominantZone].
  destruct (ZMV.differs (ZMV.prevDominantZoneRef t) (IZC.id zone)) eqn:Hd.
  - cbn. split; [apply lookup_insert_eq | reflexivity].
  - apply differs_false in Hd. contradiction.
Qed.

Lemma tracker_is_edge_triggered_witness :
  LMH.morphHistory
    (ZMV.history (ZMV.trackDominantZone (Some IZC.zoneA) ZMV.initialTracker))
    !! "A"%string
  = Some (LGS.getLeafPropertiesFromZone "ice").
Proof.
  refine (proj1 (proj2 (proj2 (proj2 (tracker_is_edge_triggered IZC.zoneA
                                        ZMV.initialTracker))) _)).
  discriminate.
Defined.

(** ** From the position to the leaf mesh *)





(** X20: the mesh and the tracker key on different things: when the dominant
    zone changes to another zone of the same type, the leaf mesh effect is a
    no-op, while the tracker records the new zone's id. *)
Theorem same_type_zone_change :
  forall (BufferGeometry : Type)
         (buildGeometry : LGS.LeafProperties -> BufferGeometry)
         (za zb : IZC.InfluenceZone) (r : ALM.Refs BufferGeometry)
         (t : ZMV.Tracker),
    IZC.type za = IZC.type zb -> IZC.id za <> IZC.id zb ->
    let r1 := ALM.zoneEffect buildGeometry (ZMV.currentZoneType (Some za)) r in
    let t1 := ZMV.trackDominantZone (Some za) t in
    ALM.zoneEffect buildGeometry (ZMV.currentZoneType (Some zb)) r1 = r1 /\
    IZC.id zb ∈ ZMV.visitedZonesRef (ZMV.trackDominantZone (Some zb) t1) /\
    LMH.morphHistory (ZMV.history (ZMV.trackDominantZone (Some zb) t1))
      !! IZC.id zb
    = Some (LGS.getLeafPropertiesFromZone (IZC.type zb)).
Proof.
  intros G build za zb r t Htype Hid r1 t1. subst r1 t1.
  split; [| split].
  - cbn [ZMV.currentZoneType]. rewrite <- Htype.
    set (zt := Js.or_string (IZC.type za) "default").
    destruct (String.eqb zt (ALM.previousZoneType r)) eqn:He.
    + apply String.eqb_eq in He. rewrite He, !zoneEffect_same. reflexivity.
    + apply String.eqb_neq in He. rewrite (zoneEffect_changed G build zt r He).
      unfold ALM.zoneEffect. cbn [ALM.previousZoneType].
      rewrite String.eqb_refl. reflexivity.
  - assert (Hne : ZMV.prevDominantZoneRef (ZMV.trackDominantZone (Some za) t)
                  <> Some (IZC.id zb)).
    { cbn [ZMV.trackDominantZone].
      destruct (ZMV.differs (ZMV.prevDominantZoneRef t) (IZC.id za)) eqn:Hd.
      - cbn. congruence.
      - apply differs_false in Hd. rewrite Hd. congruence. }
    cbn [ZMV.trackDominantZone] in *.
    destruct (ZMV.differs _ (IZC.id zb)) eqn:Hd2.
    + cbn. set_solver.
    + apply differs_false in Hd2. contradiction.
  - assert (Hne : ZMV.prevDominantZoneRef (ZMV.trackDominantZone (Some za) t)
                  <> Some (IZC.id zb)).
    { cbn [ZMV.trackDominantZone].
      destruct (ZMV.differs (ZMV.prevDominantZoneRef t) (IZC.id za)) eqn:Hd.
      - cbn. congruence.
      - apply differs_false in Hd. rewrite Hd. congruence. }
    cbn [ZMV.trackDominantZone] in *.
    destruct (ZMV.differs _ (IZC.id zb)) eqn:Hd2.
    + cbn. apply lookup_insert_eq.
    + apply differs_false in Hd2. contradiction.
Qed.

Lemma same_type_zone_change_witness :
  ALM.zoneEffect ALM.sampleBuild
    (ZMV.currentZoneType
       (Some (IZC.mkZone "A2" "ice" (IZC.mkVector3 9 0 0) 2 "#A8D8EA" 1 "cold")))
    (ALM.zoneEffect ALM.sampleBuild (ZMV.currentZoneType (Some IZC.zoneA))
       ALM.sampleMounted)
  = ALM.zoneEffect ALM.sampleBuild (ZMV.currentZoneType (Some IZC.zoneA))
      ALM.sampleMounted.
Proof.
  refine (proj1 (same_type_zone_change LGS.LeafProperties ALM.sampleBuild
                   IZC.zoneA
                   (IZC.mkZone "A2" "ice" (IZC.mkVector3 9 0 0) 2 "#A8D8EA" 1
                      "cold")
                   ALM.sampleMounted ZMV.initialTracker _ _)).
  - reflexivity.
  - discriminate.
Defined.

(** ** Runs of the frame callback *)

Section FrameRuns.

Variable BufferGeometry : Type.
Variable emptyGeometry : BufferGeometry.
Variable buildGeometry : LGS.LeafProperties -> BufferGeometry.

Local Abbreviation progress r := (ALM.morphProgress (ALM.morphStateRef r)).
Local Abbreviation transitioning r := (ALM.isTransitioning (ALM.morphStateRef r)).
Local Abbreviation mounted r := (ALM.meshRef r = true /\ ALM.materialRef r = true).

Lemma runFrames_idle (deltas : list Q) (r : ALM.Refs BufferGeometry) :
  transitioning r = false -> Runs.runFrames deltas r = r.
Proof.
  intros Hidle. induction deltas as [| delta rest IH]; [reflexivity |].
  cbn [Runs.runFrames List.fold_left]. rewrite frame_idle by exact Hidle.
  exact IH.
Qed.

(** A frame writes the progress, the two flags and nothing else. *)
Lemma frame_keeps (delta : Q) (r : ALM.Refs BufferGeometry) :
  ALM.currentLeafGeometry (ALM.morphStateRef (ALM.frame delta r))
    = ALM.currentLeafGeometry (ALM.morphStateRef r) /\
  ALM.targetLeafGeometry (ALM.morphStateRef (ALM.frame delta r))
    = ALM.targetLeafGeometry (ALM.morphStateRef r) /\
  ALM.previousZoneType (ALM.frame delta r) = ALM.previousZoneType r /\
  ALM.meshRef (ALM.frame delta r) = ALM.meshRef r /\
  ALM.materialRef (ALM.frame delta r) = ALM.materialRef r.
Proof.
  unfold ALM.frame.
  destruct (negb (ALM.meshRef r) || negb (ALM.materialRef r));
    [repeat split |].
  destruct (transitioning r); [| repeat split].
  destruct (Qle_bool 1 (progress r + delta * 2)); repeat split.
Qed.

Lemma runFrames_keeps (deltas : list Q) :
  forall r : ALM.Refs BufferGeometry,
    ALM.currentLeafGeometry (ALM.morphStateRef (Runs.runFrames deltas r))
      = ALM.currentLeafGeometry (ALM.morphStateRef r) /\
    ALM.targetLeafGeometry (ALM.morphStateRef (Runs.runFrames deltas r))
      = ALM.targetLeafGeometry (ALM.morphStateRef r) /\
    ALM.previousZoneType (Runs.runFrames deltas r) = ALM.previousZoneType r.
Proof.
  induction deltas as [| delta rest IH]; intros r; [repeat split |].
  cbn [Runs.runFrames List.fold_left].
  destruct (IH (ALM.frame delta r)) as (Hc & Ht & Hp).
  destruct (frame_keeps delta r) as (Hc' & Ht' & Hp' & _).
  unfold Runs.runFrames in *. rewrite Hc, Ht, Hp, Hc', Ht', Hp'.
  repeat split.
Qed.

(** X22: frames never touch the geometries or the previous zone type: after
    a zone change and any number of frames, also once the transition is
    over, the current geometry is still the one built for the previous
    type and the target geometry the one built for the new type. *)
Theorem frames_keep_geometries :
  forall (deltas : list Q) (zoneType : string) (r : ALM.Refs BufferGeometry),
    zoneType <> ALM.previousZoneType r ->
    let r' := Runs.runFrames deltas (ALM.zoneEffect buildGeometry zoneType r) in
    ALM.currentLeafGeometry (ALM.morphStateRef r')
      = LGS.generateLeafGeometry BufferGeometry buildGeometry
          (LGS.getLeafPropertiesFromZone (ALM.previousZoneType r)) /\
    ALM.targetLeafGeometry (ALM.morphStateRef r')
      = LGS.generateLeafGeometry BufferGeometry buildGeometry
          (LGS.getLeafPropertiesFromZone zoneType) /\
    ALM.previousZoneType r' = zoneType.
Proof.
  intros deltas zoneType r Hne r'. subst r'.
  destruct (runFrames_keeps deltas (ALM.zoneEffect buildGeometry zoneType r))
    as (Hc & Ht & Hp).
  rewrite Hc, Ht, Hp.
  rewrite (zoneEffect_changed BufferGeometry buildGeometry zoneType r Hne).
  repeat split.
Qed.

(** X23: in every reachable state the spore flag equals the transitioning
    flag, and an idle component has progress exactly 0 or exactly 1. *)
Theorem spores_follow_transition :
  forall r : ALM.Refs BufferGeometry,
    ALM.reachable BufferGeometry emptyGeometry buildGeometry r ->
    ALM.showSporesRef r = transitioning r /\
    (transitioning r = false -> progress r = 0 \/ progress r = 1).
Proof.
  induction 1 as [| r r' _ [IHs IHp] Hstep].
  - split; [reflexivity | intros _; left; reflexivity].
  - destruct Hstep as [r | zoneType r | delta r Hdelta].
    + split; [exact IHs | exact IHp].
    + unfold ALM.zoneEffect.
      destruct (String.eqb zoneType (ALM.previousZoneType r));
        [split; [exact IHs | exact IHp] |].
      cbn. split; [reflexivity | discriminate].
    + unfold ALM.frame.
      destruct (negb (ALM.meshRef r) || negb (ALM.materialRef r));
        [split; [exact IHs | exact IHp] |].
      destruct (transitioning r) eqn:Htr.
      2:{ rewrite Htr. split; [exact IHs | intros _; apply IHp; reflexivity]. }
      destruct (Qle_bool 1 (progress r + delta * 2)); cbn.
      * split; [reflexivity | intros _; right; reflexivity].
      * split; [rewrite IHs; reflexivity | discriminate].
Qed.

End FrameRuns.

Lemma frames_keep_geometries_witness :
  ALM.currentLeafGeometry
    (ALM.morphStateRef
       (Runs.runFrames [0.3; 0.3]
          (ALM.zoneEffect ALM.sampleBuild "speed_boost" ALM.sampleInFlight)))
  = LGS.generateLeafGeometry LGS.LeafProperties ALM.sampleBuild
      (LGS.getLeafPropertiesFromZone "ice").
Proof.
  refine (proj1 (frames_keep_geometries LGS.LeafProperties ALM.sampleBuild
                   [0.3; 0.3] "speed_boost"%string ALM.sampleInFlight _)).
  discriminate.
Defined.

Lemma spores_follow_transition_witness :
  ALM.showSporesRef ALM.sampleMounted
  = ALM.isTransitioning (ALM.morphStateRef ALM.sampleMounted).
Proof.
  exact (proj1 (spores_follow_transition LGS.LeafProperties ALM.sampleEmpty
                  ALM.sampleBuild ALM.sampleMounted sampleMounted_reachable)).
Defined.

(** ** Position smoothing *)

Lemma trackStill_step (n : nat) (world : IZC.Vector3) (refs : PPT.TrackingRefs)
    (provider : IZC.ProviderState) :
  PPT.trackStill (S n) world refs provider
  = PPT.trackStill n world
      (fst (PPT.trackFrame (Some world) world refs provider))
      (snd (PPT.trackFrame (Some world) world refs provider)).
Proof. reflexivity. Qed.

Lemma power_step (n : nat) :
  (4 # 5) ^ Z.of_nat (S n) == (4 # 5) * (4 # 5) ^ Z.of_nat n.
Proof.
  rewrite Nat2Z.inj_succ, <- Z.add_1_l.
  rewrite Qpower_plus by discriminate. reflexivity.
Qed.

Lemma power_positive (n : nat) : 0 < (4 # 5) ^ Z.of_nat n.
Proof.
  induction n as [| n IH]; [reflexivity |].
  rewrite power_step. apply Qmult_lt_0_compat; [reflexivity | exact IH].
Qed.

Lemma trackStill_gap (n : nat) (world : IZC.Vector3) :
  forall (refs : PPT.TrackingRefs) (provider : IZC.ProviderState),
    let s := PPT.smoothedPositionRef refs in
    let s' :=
      PPT.smoothedPositionRef (fst (PPT.trackStill n world refs provider)) in
    IZC.x world - IZC.x s' == (4 # 5) ^ Z.of_nat n * (IZC.x world - IZC.x s) /\
    IZC.y world - IZC.y s' == (4 # 5) ^ Z.of_nat n * (IZC.y world - IZC.y s) /\
    IZC.z world - IZC.z s' == (4 # 5) ^ Z.of_nat n * (IZC.z world - IZC.z s).
Proof.
  induction n as [| n IH]; intros refs provider s s'; subst s s'.
  - cbn [PPT.trackStill fst]. change ((4 # 5) ^ Z.of_nat 0) with 1.
    repeat split; ring.
  - rewrite trackStill_step.
    destruct (IH (fst (PPT.trackFrame (Some world) world refs provider))
                (snd (PPT.trackFrame (Some world) world refs provider)))
      as (Hx & Hy & Hz).
    cbv zeta in Hx, Hy, Hz. rewrite Hx, Hy, Hz, power_step.
    cbn [PPT.trackFrame fst PPT.smoothedPositionRef PPT.lerpVector
         IZC.x IZC.y IZC.z].
    repeat split; ring.
Qed.

(** X24: the tracker resolves the zones at the smoothed position, not at the
    player's: each frame moves the smoothed position a fifth of the way to
    the player, so with the player standing still the remaining offset
    after n frames is (4/5)^n of the initial one in every coordinate, and a
    coordinate equals the player's only if it did from the start. *)
Theorem tracking_lags_geometrically :
  forall (n : nat) (world camera : IZC.Vector3) (refs : PPT.TrackingRefs)
         (provider : IZC.ProviderState),
    let s := PPT.smoothedPositionRef refs in
    let after := PPT.trackStill n world refs provider in
    let s' := PPT.smoothedPositionRef (fst after) in
    IZC.playerZoneState
      (snd (PPT.trackFrame (Some world) camera refs provider))
    = IZC.resolve (PPT.lerpVector s world 0.2) (IZC.zones provider) /\
    IZC.playerZoneState (snd (PPT.trackFrame None camera refs provider))
    = IZC.resolve (PPT.lerpVector s camera 0.2) (IZC.zones provider) /\
    (IZC.x world - IZC.x s' == (4 # 5) ^ Z.of_nat n * (IZC.x world - IZC.x s) /\
     IZC.y world - IZC.y s' == (4 # 5) ^ Z.of_nat n * (IZC.y world - IZC.y s) /\
     IZC.z world - IZC.z s' == (4 # 5) ^ Z.of_nat n * (IZC.z world - IZC.z s)) /\
    (IZC.x s' == IZC.x world <-> IZC.x s == IZC.x world).
Proof.
  intros n world camera refs provider s after s'. subst s after s'.
  split; [reflexivity |]. split; [reflexivity |].
  pose proof (trackStill_gap n world refs provider) as Hgap.
  cbv zeta in Hgap. split; [exact Hgap |].
  destruct Hgap as (Hx & _ & _).
  pose proof (power_positive n) as Hpos.
  set (k := (4 # 5) ^ Z.of_nat n) in *.
  split; intros Heq.
  - assert (Hz : k * (IZC.x world - IZC.x (PPT.smoothedPositionRef refs)) == 0)
      by (rewrite <- Hx; lra).
    apply Qmult_integral in Hz as [Hk | Hd]; lra.
  - assert (Hz : IZC.x world
                 - IZC.x (PPT.smoothedPositionRef
                            (fst (PPT.trackStill n world refs provider))) == 0).
    { rewrite Hx.
      assert (Hd : IZC.x world - IZC.x (PPT.smoothedPositionRef refs) == 0)
        by lra.
      rewrite Hd. ring. }
    lra.
Qed.

(** ** Jumping *)

Lemma handleJump_isJumping (i : PJ.JumpInput) (s : PJ.JumpState) :
  PJ.isJumping (PJ.handleJump i s) = PJ.jumps i s || PJ.isJumping s.
Proof.
  unfold PJ.handleJump. cbv zeta.
  destruct (PJ.jumps i s) eqn:Hj;
    destruct (PJ.isGrounded i && PJ.wait s && negb (PJ.isJumping s));
    reflexivity.
Qed.

Lemma handleJump_impulses (i : PJ.JumpInput) (s : PJ.JumpState) :
  PJ.impulses (PJ.handleJump i s)
  = if PJ.jumps i s && PJ.hasControls i
    then PJ.impulses s
         ++ [PJ.mkImpulse 0 (1.8 * default 1 (PJ.jumpBoostMultiplier i)) 0]
    else PJ.impulses s.
Proof.
  unfold PJ.handleJump. cbv zeta.
  destruct (PJ.jumps i s) eqn:Hj;
    destruct (PJ.isGrounded i && PJ.wait s && negb (PJ.isJumping s));
    cbn; destruct (PJ.hasControls i); reflexivity.
Qed.

Lemma jumps_needs_idle (i : PJ.JumpInput) (s : PJ.JumpState) :
  PJ.jumps i s = true ->
  PJ.jumpPressed i = true /\ PJ.isGrounded i = true /\
  PJ.wait s = false /\ PJ.isJumping s = false.
Proof.
  unfold PJ.jumps. rewrite !andb_true_iff, !negb_true_iff. tauto.
Qed.

(** X25: jumps are gated: a call applies an impulse only when the key is
    pressed on the ground with neither [wait] nor [isJumping] set and the
    rigid body is there; the impulse is vertical, 1.8 times the boost
    multiplier (1.8 without one); a call in the air changes nothing; and a
    call that jumps raises both flags, so the next call cannot jump. *)
Theorem jump_is_gated :
  forall (i next : PJ.JumpInput) (s : PJ.JumpState),
    PJ.impulses (PJ.handleJump i s)
    = (if PJ.jumpPressed i && PJ.isGrounded i && negb (PJ.wait s)
          && negb (PJ.isJumping s) && PJ.hasControls i
       then PJ.impulses s
            ++ [PJ.mkImpulse 0 (1.8 * default 1 (PJ.jumpBoostMultiplier i)) 0]
       else PJ.impulses s) /\
    (PJ.isGrounded i = false -> PJ.handleJump i s = s) /\
    (PJ.jumps i s = true ->
     PJ.wait (PJ.handleJump i s) = true /\
     PJ.isJumping (PJ.handleJump i s) = true /\
     PJ.jumps next (PJ.handleJump i s) = false /\
     PJ.impulses (PJ.handleJump next (PJ.handleJump i s))
     = PJ.impulses (PJ.handleJump i s)).
Proof.
  intros i next s. split; [apply handleJump_impulses |]. split.
  - intros Hair. unfold PJ.handleJump, PJ.jumps. cbv zeta. rewrite Hair.
    rewrite andb_false_r. reflexivity.
  - intros Hj. pose proof (jumps_needs_idle i s Hj) as (_ & _ & Hw & Hi).
    assert (Hwait : PJ.wait (PJ.handleJump i s) = true).
    { unfold PJ.handleJump. cbv zeta. rewrite Hj, Hw, andb_false_r. reflexivity. }
    assert (Hnext : PJ.jumps next (PJ.handleJump i s) = false).
    { unfold PJ.jumps at 1. rewrite Hwait. cbn [negb].
      rewrite andb_false_r. reflexivity. }
    split; [exact Hwait |]. split.
    + rewrite handleJump_isJumping, Hj. reflexivity.
    + split; [exact Hnext |].
      rewrite (handleJump_impulses next), Hnext. reflexivity.
Qed.

Lemma jump_is_gated_witness :
  PJ.impulses
    (PJ.handleJump (PJ.mkJumpInput true true true 0.8 None)
       (PJ.handleJump (PJ.mkJumpInput true true true 0.8 (Some 1.5))
          PJ.initialJump))
  = PJ.impulses
      (PJ.handleJump (PJ.mkJumpInput true true true 0.8 (Some 1.5))
         PJ.initialJump).
Proof.
  refine (proj2 (proj2 (proj2 (proj2 (proj2
            (jump_is_gated (PJ.mkJumpInput true true true 0.8 (Some 1.5))
               (PJ.mkJumpInput true true true 0.8 None) PJ.initialJump))
            _)))).
  reflexivity.
Defined.

(** ** The zones of the level *)

Lemma square_of_difference (u v : Q) :
  (u - v) * (u - v) <= 2 * (u * u) + 2 * (v * v).
Proof.
  assert (Hsq : forall a : Q, 0 <= a * a) by (intros a; nra).
  pose proof (Hsq (u + v)) as H. nra.
Qed.

Lemma centres_within_reach (p a b : IZC.Vector3) :
  IZC.distanceToSquared a b
  <= 2 * IZC.distanceToSquared p a + 2 * IZC.distanceToSquared p b.
Proof.
  unfold IZC.distanceToSquared. cbv zeta.
  pose proof (square_of_difference (IZC.x p - IZC.x b) (IZC.x p - IZC.x a)) as Hx.
  pose proof (square_of_difference (IZC.y p - IZC.y b) (IZC.y p - IZC.y a)) as Hy.
  pose proof (square_of_difference (IZC.z p - IZC.z b) (IZC.z p - IZC.z a)) as Hz.
  assert (Ex : IZC.x a - IZC.x b == IZC.x p - IZC.x b - (IZC.x p - IZC.x a))
    by ring.
  assert (Ey : IZC.y a - IZC.y b == IZC.y p - IZC.y b - (IZC.y p - IZC.y a))
    by ring.
  assert (Ez : IZC.z a - IZC.z b == IZC.z p - IZC.z b - (IZC.z p - IZC.z a))
    by ring.
  rewrite Ex, Ey, Ez. lra.
Qed.

Lemma farApart_not_both (p : IZC.Vector3) (a b : IZC.InfluenceZone) :
  Environment.farApart a b = true ->
  IZC.isInside p a = true -> IZC.isInside p b = true -> False.
Proof.
  unfold Environment.farApart, IZC.isInside, IZC.distanceTo_leb.
  rewrite negb_true_iff, !andb_true_iff, !Qle_bool_iff.
  intros Hfar [_ Ha] [_ Hb].
  assert (Hle : IZC.distanceToSquared (IZC.position a) (IZC.position b)
                <= 2 * (IZC.radius a * IZC.radius a
                        + IZC.radius b * IZC.radius b)).
  { pose proof (centres_within_reach p (IZC.position a) (IZC.position b)) as H.
    lra. }
  apply Qle_bool_iff in Hle. congruence.
Qed.

Lemma pairwiseFar_one_active (p : IZC.Vector3) (zs : list IZC.InfluenceZone) :
  Environment.pairwiseFar zs = true ->
  (List.length (List.filter (IZC.isInside p) zs) <= 1)%nat.
Proof.
  induction zs as [| zone rest IH]; intros Hfar; [cbn; lia |].
  cbn [Environment.pairwiseFar] in Hfar.
  apply andb_true_iff in Hfar as [Hzone Hrest].
  cbn [List.filter]. destruct (IZC.isInside p zone) eqn:Hin; [| apply IH, Hrest].
  assert (Hnone : List.filter (IZC.isInside p) rest = []).
  { clear IH Hrest. induction rest as [| other rest IH]; [reflexivity |].
    cbn [List.forallb] in Hzone. apply andb_true_iff in Hzone as [Hfar Hmore].
    cbn [List.filter]. destruct (IZC.isInside p other) eqn:Hother.
    - exfalso. exact (farApart_not_both p zone other Hfar Hin Hother).
    - apply IH, Hmore. }
  rewrite Hnone. cbn. lia.
Qed.

(** X27: in the level as shipped no two zones overlap: at every position at
    most one zone is active, so the dominant zone is the only active zone
    and registration order never decides; the zone ids are pairwise
    distinct and all radii positive; and the registering effect runs once:
    a second run leaves the registry as the first run left it. *)
Theorem level_zones_never_overlap :
  forall (p : IZC.Vector3) (st : IZC.ProviderState),
    (List.length (IZC.activeZones (IZC.resolve p Environment.levelZones))
     <= 1)%nat /\
    IZC.activeZones (IZC.resolve p Environment.levelZones)
    = match IZC.dominantZone (IZC.resolve p Environment.levelZones) with
      | Some zone => [zone]
      | None => []
      end /\
    List.NoDup (List.map IZC.id Environment.levelZones) /\
    Forall (fun zone => 0 < IZC.radius zone) Environment.levelZones /\
    IZC.zones (snd (Environment.initializeZones false st))
    = IZC.zones st ++ Environment.levelZones /\
    Environment.initializeZones
      (fst (Environment.initializeZones false st))
      (snd (Environment.initializeZones false st))
    = Environment.initializeZones false st.
Proof.
  intros p st.
  assert (Hone : (List.length
                    (IZC.activeZones (IZC.resolve p Environment.levelZones))
                  <= 1)%nat).
  { rewrite resolve_active. apply pairwiseFar_one_active. reflexivity. }
  split; [exact Hone |]. split; [| split; [| split; [| split]]].
  - rewrite resolve_dominant_head.
    destruct (IZC.activeZones (IZC.resolve p Environment.levelZones))
      as [| z [| z' rest]]; [reflexivity | reflexivity |].
    cbn [List.length] in Hone. lia.
  - cbn. repeat (constructor; [cbn; intuition discriminate |]). constructor.
  - repeat (constructor; [reflexivity |]). constructor.
  - destruct st as [zs pos pzs]. cbn. rewrite <- !List.app_assoc. reflexivity.
  - reflexivity.
Qed.

(** ** The morph pulse of the advanced visualizer *)

Lemma pulse_step (n : nat) :
  (9 # 10) ^ Z.of_nat (S n) == (9 # 10) ^ Z.of_nat n * (9 # 10).
Proof.
  rewrite Nat2Z.inj_succ, <- Z.add_1_r.
  rewrite Qpower_plus by discriminate. reflexivity.
Qed.

Lemma pulse_bounds (n : nat) :
  0 < (9 # 10) ^ Z.of_nat n /\ (9 # 10) ^ Z.of_nat n <= 1.
Proof.
  induction n as [| n [IH0 IH1]]; [split; [reflexivity | discriminate] |].
  rewrite pulse_step. split; nra.
Qed.

Lemma shapeFrames_progress (n : nat) :
  forall r : AMS.ShapeRefs,
    AMS.morphProgressRef (AMS.shapeFrames n r)
      == AMS.morphProgressRef r * (9 # 10) ^ Z.of_nat n /\
    AMS.previousShapeRef (AMS.shapeFrames n r) = AMS.previousShapeRef r /\
    AMS.shouldShowParticles (AMS.shapeFrames n r) = AMS.shouldShowParticles r.
Proof.
  induction n as [| n IH]; intros r.
  - cbn [AMS.shapeFrames]. change ((9 # 10) ^ Z.of_nat 0) with 1.
    split; [ring | split; reflexivity].
  - cbn [AMS.shapeFrames].
    destruct (IH (AMS.shapeFrame true r)) as (Hp & Hs & Hq).
    rewrite Hp, Hs, Hq, pulse_step.
    cbn [AMS.shapeFrame AMS.morphProgressRef AMS.previousShapeRef
         AMS.shouldShowParticles].
    split; [unfold LGS.lerp; ring | split; reflexivity].
Qed.

(** X28: a shape change sets the morph progress of the advanced visualizer
    to 1, and every frame then multiplies it by 0.9: n frames after the
    change it is (9/10)^n, which stays in (0,1] and never reaches 0; frames
    touch neither the recorded shape nor the particle flag. *)
Theorem morph_pulse_decays :
  forall (n : nat) (shape : option string) (r : AMS.ShapeRefs),
    AMS.previousShapeRef r <> shape ->
    let r' := AMS.shapeFrames n (AMS.shapeEffect shape r) in
    AMS.morphProgressRef r' == (9 # 10) ^ Z.of_nat n /\
    0 < AMS.morphProgressRef r' /\ AMS.morphProgressRef r' <= 1 /\
    AMS.previousShapeRef r' = shape /\
    AMS.shouldShowParticles r' = true.
Proof.
  intros n shape r Hne r'. subst r'.
  destruct (shapeFrames_progress n (AMS.shapeEffect shape r)) as (Hp & Hs & Hq).
  assert (He : AMS.shapeEffect shape r
               = AMS.mkShapeRefs shape 1 true).
  { unfold AMS.shapeEffect. rewrite bool_decide_eq_false_2 by exact Hne.
    reflexivity. }
  rewrite He in Hp, Hs, Hq. rewrite He.
  cbn [AMS.morphProgressRef AMS.previousShapeRef AMS.shouldShowParticles]
    in Hp, Hs, Hq.
  destruct (pulse_bounds n) as [Hb0 Hb1].
  assert (Hp' : AMS.morphProgressRef
                  (AMS.shapeFrames n (AMS.mkShapeRefs shape 1 true))
                == (9 # 10) ^ Z.of_nat n) by (rewrite Hp; ring).
  split; [exact Hp' |]. rewrite Hp'.
  split; [exact Hb0 |]. split; [exact Hb1 |]. split; assumption.
Qed.

Lemma morph_pulse_decays_witness :
  AMS.morphProgressRef
    (AMS.shapeFrames 2
       (AMS.shapeEffect (AMS.shapeType (Some IZC.zoneA))
          (AMS.mountShape (AMS.shapeType None))))
  == (9 # 10) ^ Z.of_nat 2.
Proof.
  refine (proj1 (morph_pulse_decays 2 (AMS.shapeType (Some IZC.zoneA))
                   (AMS.mountShape (AMS.shapeType None)) _)).
  discriminate.
Defined.

Lemma ZoneShapes_lookup (k : string) :
  AMS.ZoneShapes !! k =
  if decide (k = "ice"%string) then Some "icosahedron"%string
  else if decide (k = "jump_boost"%string) then Some "octahedron"%string
  else if decide (k = "damage"%string) then Some "cube"%string
  else if decide (k = "slow"%string) then Some "torus"%string
  else if decide (k = "speed_boost"%string) then Some "sphere"%string
  else None.
Proof.
  unfold AMS.ZoneShapes.
  repeat (case_decide; [subst k; reflexivity |]).
  rewrite !lookup_insert_ne by congruence.
  apply lookup_singleton_ne. congruence.
Qed.

(** X29: the pulse is keyed on the shape, and the shape of a speed zone is
    the shape shown without any zone: a zone has the no-zone shape exactly
    when its type is speed_boost, so entering or leaving a speed zone from
    or to no zone starts no pulse, while any other mapped type does. *)
Theorem speed_zone_starts_no_pulse :
  forall (zone : IZC.InfluenceZone) (r : AMS.ShapeRefs),
    (AMS.shapeType (Some zone) = AMS.shapeType None <->
     IZC.type zone = "speed_boost"%string) /\
    (AMS.previousShapeRef r = AMS.shapeType None ->
     (AMS.shapeEffect (AMS.shapeType (Some zone)) r = r <->
      IZC.type zone = "speed_boost"%string)).
Proof.
  intros zone r.
  assert (Hiff : AMS.shapeType (Some zone) = AMS.shapeType None <->
                 IZC.type zone = "speed_boost"%string).
  { cbn [AMS.shapeType]. rewrite ZoneShapes_lookup.
    destruct (decide (IZC.type zone = "ice"%string)) as [-> | Hice];
      [split; discriminate |].
    destruct (decide (IZC.type zone = "jump_boost"%string)) as [-> | Hjump];
      [split; discriminate |].
    destruct (decide (IZC.type zone = "damage"%string)) as [-> | Hdamage];
      [split; discriminate |].
    destruct (decide (IZC.type zone = "slow"%string)) as [-> | Hslow];
      [split; discriminate |].
    destruct (decide (IZC.type zone = "speed_boost"%string)) as [Hs | Hs];
      [split; [intros _; exact Hs | reflexivity] |].
    split; [discriminate | intros Hn; contradiction]. }
  split; [exact Hiff |].
  intros Hprev. rewrite <- Hiff. unfold AMS.shapeEffect.
  case_bool_decide as Hd.
  - split; [intros _; rewrite <- Hd, Hprev; reflexivity | reflexivity].
  - split.
    + intros Heq. exfalso. apply Hd.
      apply (f_equal AMS.previousShapeRef) in Heq.
      cbn [AMS.previousShapeRef] in Heq. symmetry. exact Heq.
    + intros Hs. exfalso. apply Hd. rewrite Hprev, Hs. reflexivity.
Qed.

Lemma speed_zone_starts_no_pulse_witness :
  AMS.shapeEffect (AMS.shapeType (Some IZC.zoneB))
    (AMS.mountShape (AMS.shapeType None))
  = AMS.mountShape (AMS.shapeType None).
Proof.
  refine (proj2 (proj2 (speed_zone_starts_no_pulse IZC.zoneB
                          (AMS.mountShape (AMS.shapeType None))) _) _).
  - reflexivity.
  - reflexivity.
Defined.
